(** * Game of Life: the simulation core

    A shallow embedding of the simulation core of the three program variants
    (GameOfLife.py, GameOfLife_Claude.py and GameOfLife_Gemini.py): the grid,
    the neighbour count, the transition rule with its statistics, the bounded
    undo/redo history, pattern placement and the JSON save/load format.

    GameOfLife.py and GameOfLife_Claude.py share the text of every function
    modelled here, so one set of definitions stands for both; the functions of
    GameOfLife_Gemini.py live in [Module Gemini]. *)

From stdpp Require Import base list strings.
From Stdlib Require Import ZArith Lia.

Local Open Scope Z_scope.

(** ** Python values and exceptions *)

Inductive exn :=
| IndexError | KeyError | TypeError | AttributeError | ValueError
| JSONDecodeError | FileNotFoundError | OverflowError.

(** A computation either returns or raises. An exception that leaves one of
    the methods below unwinds to [main], which prints it and exits, so a
    raised computation carries no state. [load_pattern] and [save_pattern]
    catch their exceptions themselves and are modelled with the state at the
    point of the raise. *)
Inductive py (A : Type) : Type :=
| Ret (a : A)
| Raise (e : exn).
Arguments Ret {A} a.
Arguments Raise {A} e.

#[global] Instance py_ret : MRet py := fun A a => Ret a.
#[global] Instance py_bind : MBind py := fun A B f m =>
  match m with
  | Ret a => f a
  | Raise e => Raise e
  end.

(** [for x in xs: s = body(s, x)] *)
Fixpoint for_each {A S : Type} (xs : list A) (body : S -> A -> py S) (s : S) : py S :=
  match xs with
  | [] => Ret s
  | x :: xs' => s' ← body s x; for_each xs' body s'
  end.

(** [range(n)] *)
Definition range (n : Z) : list Z := seqZ 0 n.

(** [sum(f(x) for x in xs)] *)
Definition sum_over {A : Type} (xs : list A) (f : A -> Z) : Z :=
  foldr (fun x acc => f x + acc) 0 xs.

(** Two's-complement wrap-around of numpy's 64-bit integers. *)
Definition wrap64 (z : Z) : Z :=
  (z + 9223372036854775808) mod 18446744073709551616 - 9223372036854775808.

(** An integer held by a Python variable is either a built-in [int] or a
    numpy scalar; [json.dump] tells them apart. *)
Inductive pyint :=
| PyInt (v : Z)
| NpInt64 (v : Z).

Definition int_value (a : pyint) : Z :=
  match a with
  | PyInt v => v
  | NpInt64 v => v
  end.

(** [a + b]: a numpy operand makes the result a numpy scalar. *)
Definition py_add (a b : pyint) : pyint :=
  match a, b with
  | PyInt x, PyInt y => PyInt (x + y)
  | _, _ => NpInt64 (wrap64 (int_value a + int_value b))
  end.

(** [max(a, b)]: the built-in keeps its first argument unless the second is
    strictly greater. *)
Definition py_max (a b : pyint) : pyint :=
  if int_value a <? int_value b then b else a.

(** Index [i] on an axis of length [n]: a negative index counts from the end,
    anything outside [-n, n) raises. Lists and numpy arrays agree on this. *)
Definition axis_index (n : nat) (i : Z) : py nat :=
  if (0 <=? i) && (i <? Z.of_nat n) then Ret (Z.to_nat i)
  else if (- Z.of_nat n <=? i) && (i <? 0) then Ret (Z.to_nat (i + Z.of_nat n))
  else Raise IndexError.

(** [l[i]] *)
Definition list_getitem {A : Type} (l : list A) (i : Z) : py A :=
  n ← axis_index (length l) i;
  match l !! n with
  | Some x => Ret x
  | None => Raise IndexError
  end.

(** [l[:k]] *)
Definition list_slice_to {A : Type} (l : list A) (k : Z) : list A :=
  if 0 <=? k then take (Z.to_nat k) l
  else take (Z.to_nat (Z.of_nat (length l) + k)) l.

(** ** numpy integer matrices *)

(** A two-dimensional integer array, row-major. *)
Abbreviation ndarray := (list (list Z)).

(** [np.zeros((h, w), dtype=int)] *)
Definition np_zeros (h w : Z) : ndarray :=
  replicate (Z.to_nat h) (replicate (Z.to_nat w) 0).

(** [a[r, c]] *)
Definition getitem (a : ndarray) (r c : Z) : py Z :=
  i ← axis_index (length a) r;
  match a !! i with
  | Some row =>
      j ← axis_index (length row) c;
      match row !! j with
      | Some v => Ret v
      | None => Raise IndexError
      end
  | None => Raise IndexError
  end.

(** [a[r, c] = v] *)
Definition setitem (a : ndarray) (r c v : Z) : py ndarray :=
  i ← axis_index (length a) r;
  match a !! i with
  | Some row =>
      j ← axis_index (length row) c;
      Ret (<[i := <[j := v]> row]> a)
  | None => Raise IndexError
  end.

Definition row_sum (row : list Z) : Z := foldr Z.add 0 row.
Definition grid_sum (a : ndarray) : Z := foldr (fun row acc => row_sum row + acc) 0 a.

(** [np.sum(a)]: a numpy scalar. *)
Definition np_sum (a : ndarray) : pyint := NpInt64 (wrap64 (grid_sum a)).

(** ** Constants of GameOfLife.py *)

Definition GRID_WIDTH : Z := 100.
Definition GRID_HEIGHT : Z := 60.
Definition CELL_SIZE : Z := 12.
Definition max_history : Z := 50.

(** ** Data model *)

Record Statistics := {
  generation : pyint;
  population : pyint;
  births : pyint;
  deaths : pyint;
  max_population : pyint;
  total_births : pyint;
  total_deaths : pyint
}.

(** [Statistics()]; the wall-clock [runtime] field is a float refreshed by the
    frame loop and is left out. *)
Definition Statistics_new : Statistics :=
  {| generation := PyInt 0; population := PyInt 0; births := PyInt 0;
     deaths := PyInt 0; max_population := PyInt 0; total_births := PyInt 0;
     total_deaths := PyInt 0 |}.

Record Pattern := {
  name : string;
  pattern : ndarray;
  description : string
}.

(** [self.height, self.width = self.pattern.shape] *)
Definition height (p : Pattern) : Z := Z.of_nat (length (pattern p)).
Definition width (p : Pattern) : Z :=
  match pattern p with
  | [] => 0
  | row :: _ => Z.of_nat (length row)
  end.

(** The fields of the [GameOfLife] object that the core reads or writes. *)
Record GameOfLife := {
  grid : ndarray;
  previous_grid : ndarray;
  stats : Statistics;
  grid_offset_x : Z;
  grid_offset_y : Z;
  history : list ndarray;
  history_index : Z;
  is_drawing : bool;
  draw_mode : bool
}.

Definition set_grid (g : ndarray) (s : GameOfLife) : GameOfLife :=
  {| grid := g; previous_grid := previous_grid s; stats := stats s;
     grid_offset_x := grid_offset_x s; grid_offset_y := grid_offset_y s;
     history := history s; history_index := history_index s;
     is_drawing := is_drawing s; draw_mode := draw_mode s |}.

Definition set_previous_grid (g : ndarray) (s : GameOfLife) : GameOfLife :=
  {| grid := grid s; previous_grid := g; stats := stats s;
     grid_offset_x := grid_offset_x s; grid_offset_y := grid_offset_y s;
     history := history s; history_index := history_index s;
     is_drawing := is_drawing s; draw_mode := draw_mode s |}.

Definition set_stats (st : Statistics) (s : GameOfLife) : GameOfLife :=
  {| grid := grid s; previous_grid := previous_grid s; stats := st;
     grid_offset_x := grid_offset_x s; grid_offset_y := grid_offset_y s;
     history := history s; history_index := history_index s;
     is_drawing := is_drawing s; draw_mode := draw_mode s |}.

Definition set_history (h : list ndarray) (i : Z) (s : GameOfLife) : GameOfLife :=
  {| grid := grid s; previous_grid := previous_grid s; stats := stats s;
     grid_offset_x := grid_offset_x s; grid_offset_y := grid_offset_y s;
     history := h; history_index := i;
     is_drawing := is_drawing s; draw_mode := draw_mode s |}.

Definition set_is_drawing (b : bool) (s : GameOfLife) : GameOfLife :=
  {| grid := grid s; previous_grid := previous_grid s; stats := stats s;
     grid_offset_x := grid_offset_x s; grid_offset_y := grid_offset_y s;
     history := history s; history_index := history_index s;
     is_drawing := b; draw_mode := draw_mode s |}.

(** [GameOfLife.__init__] with the default 1400x900 window and 320-pixel
    sidebar: an empty grid, fresh statistics, an empty history. *)
Definition GameOfLife_init : GameOfLife :=
  {| grid := np_zeros GRID_HEIGHT GRID_WIDTH;
     previous_grid := np_zeros GRID_HEIGHT GRID_WIDTH;
     stats := Statistics_new;
     grid_offset_x := (1400 - 320 - GRID_WIDTH * CELL_SIZE) / 2;
     grid_offset_y := (900 - GRID_HEIGHT * CELL_SIZE) / 2;
     history := []; history_index := -1;
     is_drawing := false; draw_mode := true |}.

(** ** History: save_to_history, undo, redo *)

Definition save_to_history (s : GameOfLife) : GameOfLife :=
  let history1 :=
    if history_index s <? Z.of_nat (length (history s)) - 1
    then list_slice_to (history s) (history_index s + 1)
    else history s in
  let history2 := history1 ++ [grid s] in
  if max_history <? Z.of_nat (length history2)
  then set_history (drop 1 history2) (history_index s) s
  else set_history history2 (history_index s + 1) s.

Definition undo (s : GameOfLife) : py GameOfLife :=
  if 0 <? history_index s then
    let index := history_index s - 1 in
    g ← list_getitem (history s) index;
    Ret (set_grid g (set_history (history s) index s))
  else Ret s.

Definition redo (s : GameOfLife) : py GameOfLife :=
  if history_index s <? Z.of_nat (length (history s)) - 1 then
    let index := history_index s + 1 in
    g ← list_getitem (history s) index;
    Ret (set_grid g (set_history (history s) index s))
  else Ret s.

(** ** Neighbour count and transition *)

Definition in_grid (r c : Z) : bool :=
  (0 <=? r) && (r <? GRID_HEIGHT) && (0 <=? c) && (c <? GRID_WIDTH).

(** [get_neighbors]: the clamped scan of the eight surrounding cells. *)
Definition get_neighbors (g : ndarray) (row col : Z) : py Z :=
  for_each [-1; 0; 1] (fun count dr =>
    for_each [-1; 0; 1] (fun count dc =>
      if (dr =? 0) && (dc =? 0) then Ret count
      else
        let r := row + dr in
        let c := col + dc in
        if in_grid r c then x ← getitem g r c; Ret (wrap64 (count + x))
        else Ret count) count) 0.

(** The body of the two loops of [update_grid] at one cell; the accumulator is
    [(new_grid, births, deaths)]. *)
Definition update_cell (g : ndarray) (row : Z) (acc : ndarray * Z * Z) (col : Z)
  : py (ndarray * Z * Z) :=
  let '(new_grid, births, deaths) := acc in
  neighbors ← get_neighbors g row col;
  x ← getitem g row col;
  if x =? 1 then
    if (neighbors =? 2) || (neighbors =? 3) then
      new_grid' ← setitem new_grid row col 1; Ret (new_grid', births, deaths)
    else Ret (new_grid, births, deaths + 1)
  else
    if neighbors =? 3 then
      new_grid' ← setitem new_grid row col 1; Ret (new_grid', births + 1, deaths)
    else Ret (new_grid, births, deaths).

(** The loops of [update_grid]: the next grid with this step's births and deaths. *)
Definition next_generation (g : ndarray) : py (ndarray * Z * Z) :=
  for_each (range GRID_HEIGHT) (fun acc row =>
    for_each (range GRID_WIDTH) (update_cell g row) acc)
    (np_zeros GRID_HEIGHT GRID_WIDTH, 0, 0).

Definition update_stats (st : Statistics) (new_grid : ndarray) (births deaths : Z) : Statistics :=
  let population := np_sum new_grid in
  {| generation := py_add (generation st) (PyInt 1);
     population := population;
     births := PyInt births;
     deaths := PyInt deaths;
     max_population := py_max (max_population st) population;
     total_births := py_add (total_births st) (PyInt births);
     total_deaths := py_add (total_deaths st) (PyInt deaths) |}.

Definition update_grid (s : GameOfLife) : py GameOfLife :=
  let s1 := set_previous_grid (grid s) s in
  '(new_grid, births, deaths) ← next_generation (grid s1);
  Ret (set_stats (update_stats (stats s1) new_grid births deaths) (set_grid new_grid s1)).

(** [n] steps in a row, as [run] takes them while the game is running. *)
Fixpoint update_grid_times (n : nat) (s : GameOfLife) : py GameOfLife :=
  match n with
  | O => Ret s
  | S n => s' ← update_grid s; update_grid_times n s'
  end.

(** ** Editing: place_pattern, toggle_cell, fill_random, clear_grid *)

(** The body of the two loops of [place_pattern] at one pattern cell. *)
Definition place_cell (p : Pattern) (grid_x grid_y row : Z) (g : ndarray) (col : Z)
  : py ndarray :=
  let grid_row := grid_y + row in
  let grid_col := grid_x + col in
  if in_grid grid_row grid_col then
    v ← getitem (pattern p) row col; setitem g grid_row grid_col v
  else Ret g.

Definition place_pattern (p : Pattern) (x y : Z) (s : GameOfLife) : py GameOfLife :=
  let grid_x := (x - grid_offset_x s) / CELL_SIZE in
  let grid_y := (y - grid_offset_y s) / CELL_SIZE in
  if (0 <=? grid_x) && (grid_x <? GRID_WIDTH) && (0 <=? grid_y) && (grid_y <? GRID_HEIGHT) then
    let s1 := save_to_history s in
    g ← for_each (range (height p)) (fun g row =>
           for_each (range (width p)) (place_cell p grid_x grid_y row) g) (grid s1);
    Ret (set_grid g s1)
  else Ret s.

Definition toggle_cell (x y : Z) (s : GameOfLife) : py GameOfLife :=
  let grid_x := (x - grid_offset_x s) / CELL_SIZE in
  let grid_y := (y - grid_offset_y s) / CELL_SIZE in
  if (0 <=? grid_x) && (grid_x <? GRID_WIDTH) && (0 <=? grid_y) && (grid_y <? GRID_HEIGHT) then
    let s1 := if negb (is_drawing s) then set_is_drawing true (save_to_history s) else s in
    g ← setitem (grid s1) grid_y grid_x (if draw_mode s1 then 1 else 0);
    Ret (set_grid g s1)
  else Ret s.

(** [np.random.choice([0, 1], size=(h, w), p=...)]: every entry is an element
    of the list [[0, 1]]; [draw r c] is the index the generator picks there. *)
Definition np_random_choice (draw : Z -> Z -> bool) (h w : Z) : ndarray :=
  (fun r => (fun c => if draw r c then 1 else 0) <$> range w) <$> range h.

Definition fill_random (draw : Z -> Z -> bool) (s : GameOfLife) : GameOfLife :=
  set_grid (np_random_choice draw GRID_HEIGHT GRID_WIDTH) (save_to_history s).

Definition clear_grid (s : GameOfLife) : GameOfLife :=
  set_stats Statistics_new (set_grid (np_zeros GRID_HEIGHT GRID_WIDTH) (save_to_history s)).

(** ** Playback speed *)

(** The events of [handle_events] that change [self.speed]: the keys 1 and 2,
    and the mouse wheel with the control key held, [y] being the wheel
    movement. *)
Inductive speed_event :=
| Key1
| Key2
| Wheel (y : Z).

Definition change_speed (speed : Z) (e : speed_event) : Z :=
  match e with
  | Key1 => Z.max 1 (speed - 1)
  | Key2 => Z.min 60 (speed + 1)
  | Wheel y => Z.max 1 (Z.min 60 (speed + y))
  end.

(** ** Persistence: save_pattern, load_pattern *)

(** What [json.load] can return. A float keeps its text only. *)
#[warnings="-register-all"] Inductive json :=
| JNull
| JBool (b : bool)
| JInt (z : Z)
| JFloat (text : string)
| JString (s : string)
| JArray (items : list json)
| JObject (members : list (string * json)).

(** The content of the save file: a JSON document, or text that [json.load]
    rejects. *)
Inductive blob :=
| Unparsable
| Document (doc : json).

(** [json.dump] writes built-in integers and rejects numpy scalars. *)
Definition json_of_int (a : pyint) : py json :=
  match a with
  | PyInt v => Ret (JInt v)
  | NpInt64 _ => Raise TypeError
  end.

(** [a.tolist()] *)
Definition tolist (a : ndarray) : json :=
  JArray ((fun row => JArray (JInt <$> row)) <$> a).

(** The [data] dictionary of [save_pattern] as [json.dump] encodes it. *)
Definition encode (s : GameOfLife) : py json :=
  generation ← json_of_int (generation (stats s));
  population ← json_of_int (population (stats s));
  max_population ← json_of_int (max_population (stats s));
  total_births ← json_of_int (total_births (stats s));
  total_deaths ← json_of_int (total_deaths (stats s));
  Ret (JObject [
    ("grid"%string, tolist (grid s));
    ("stats"%string, JObject [
       ("generation"%string, generation);
       ("population"%string, population);
       ("max_population"%string, max_population);
       ("total_births"%string, total_births);
       ("total_deaths"%string, total_deaths)])]).

(** [save_pattern]: the content of the file afterwards, and the exception the
    [except] clause printed, if any. [json.dump] streams its output, so a
    value it rejects leaves a truncated text behind. *)
Definition save_pattern (s : GameOfLife) : blob * option exn :=
  match encode s with
  | Ret doc => (Document doc, None)
  | Raise e => (Unparsable, Some e)
  end.

(** [d[key]] / [d.get(key)] on a parsed object: of duplicated keys the last
    one wins. *)
Definition dict_get (key : string) (members : list (string * json)) : option json :=
  foldl (fun found m => if String.eqb (fst m) key then Some (snd m) else found) None members.

Definition int64_range (z : Z) : bool :=
  (-9223372036854775808 <=? z) && (z <? 9223372036854775808).

Definition int_row (j : json) : option (list Z) :=
  match j with
  | JArray items =>
      mapM (fun x => match x with
                     | JInt z => if int64_range z then Some z else None
                     | _ => None
                     end) items
  | _ => None
  end.

(** [np.array(j)] where it yields an integer matrix: [j] is a non-empty list
    of non-empty integer lists of one length. For any other value numpy
    builds an array of another kind or rejects the data; that is [None]. *)
Definition int_matrix (j : json) : option ndarray :=
  match j with
  | JArray items =>
      rows ← mapM int_row items;
      match rows with
      | [] => None
      | row :: _ =>
          if (0 <? length row)%nat && forallb (fun r => length r =? length row)%nat rows
          then Some rows else None
      end
  | _ => None
  end.

(** [stats_data.get(key, 0)] where the value is an integer. *)
Definition int_field (key : string) (stats_data : list (string * json)) : option pyint :=
  match dict_get key stats_data with
  | None => Some (PyInt 0)
  | Some (JInt z) => Some (PyInt z)
  | Some _ => None
  end.

(** How a call of [load_pattern] ends. [Finished s e]: the session is [s] and
    [e] is the exception that the [except] clause printed, if any.
    [Unmodelled]: the file put into the session an array that is not an
    integer matrix, or a statistic that is not an integer. *)
Inductive outcome :=
| Finished (s : GameOfLife) (error : option exn)
| Unmodelled.

(** [load_pattern]; [file] is [None] when the file cannot be opened. *)
Definition load_pattern (file : option blob) (s : GameOfLife) : outcome :=
  match file with
  | None => Finished s (Some FileNotFoundError)
  | Some Unparsable => Finished s (Some JSONDecodeError)
  | Some (Document data) =>
      let s1 := save_to_history s in
      match data with
      | JObject members =>
          match dict_get "grid" members with
          | None => Finished s1 (Some KeyError)
          | Some jgrid =>
              match int_matrix jgrid with
              | None => Unmodelled
              | Some g =>
                  let s2 := set_grid g s1 in
                  match dict_get "stats" members with
                  | None => Finished s2 None
                  | Some (JObject stats_data) =>
                      match int_field "generation" stats_data,
                            int_field "population" stats_data,
                            int_field "max_population" stats_data,
                            int_field "total_births" stats_data,
                            int_field "total_deaths" stats_data with
                      | Some generation, Some population, Some max_population,
                        Some total_births, Some total_deaths =>
                          Finished (set_stats
                            {| generation := generation;
                               population := population;
                               births := births (stats s2);
                               deaths := deaths (stats s2);
                               max_population := max_population;
                               total_births := total_births;
                               total_deaths := total_deaths |} s2) None
                      | _, _, _, _, _ => Unmodelled
                      end
                  | Some _ => Finished s2 (Some AttributeError)
                  end
              end
          end
      | _ => Finished s1 (Some TypeError)
      end
  end.

(** ** The pattern library of GameOfLife.py *)

Definition pattern_Glider : Pattern :=
  {| name := "Glider";
     pattern :=
    [[0; 1; 0];
     [0; 0; 1];
     [1; 1; 1]];
     description := "A small spaceship that moves diagonally" |}.

Definition pattern_Gosper_Gun : Pattern :=
  {| name := "Gosper Gun";
     pattern :=
    [[0; 0; 0; 0; 0; 0; 0; 0; 0; 0; 0; 0; 0; 0; 0; 0; 0; 0; 0; 0; 0; 0; 0; 0; 1; 0; 0; 0; 0; 0; 0; 0; 0; 0; 0; 0];
     [0; 0; 0; 0; 0; 0; 0; 0; 0; 0; 0; 0; 0; 0; 0; 0; 0; 0; 0; 0; 0; 0; 1; 0; 1; 0; 0; 0; 0; 0; 0; 0; 0; 0; 0; 0];
     [0; 0; 0; 0; 0; 0; 0; 0; 0; 0; 0; 0; 1; 1; 0; 0; 0; 0; 0; 0; 1; 1; 0; 0; 0; 0; 0; 0; 0; 0; 0; 0; 0; 0; 1; 1];
     [0; 0; 0; 0; 0; 0; 0; 0; 0; 0; 0; 1; 0; 0; 0; 1; 0; 0; 0; 0; 1; 1; 0; 0; 0; 0; 0; 0; 0; 0; 0; 0; 0; 0; 1; 1];
     [1; 1; 0; 0; 0; 0; 0; 0; 0; 0; 1; 0; 0; 0; 0; 0; 1; 0; 0; 0; 1; 1; 0; 0; 0; 0; 0; 0; 0; 0; 0; 0; 0; 0; 0; 0];
     [1; 1; 0; 0; 0; 0; 0; 0; 0; 0; 1; 0; 0; 0; 1; 0; 1; 1; 0; 0; 0; 0; 1; 0; 1; 0; 0; 0; 0; 0; 0; 0; 0; 0; 0; 0];
     [0; 0; 0; 0; 0; 0; 0; 0; 0; 0; 1; 0; 0; 0; 0; 0; 1; 0; 0; 0; 0; 0; 0; 0; 1; 0; 0; 0; 0; 0; 0; 0; 0; 0; 0; 0];
     [0; 0; 0; 0; 0; 0; 0; 0; 0; 0; 0; 1; 0; 0; 0; 1; 0; 0; 0; 0; 0; 0; 0; 0; 0; 0; 0; 0; 0; 0; 0; 0; 0; 0; 0; 0];
     [0; 0; 0; 0; 0; 0; 0; 0; 0; 0; 0; 0; 1; 1; 0; 0; 0; 0; 0; 0; 0; 0; 0; 0; 0; 0; 0; 0; 0; 0; 0; 0; 0; 0; 0; 0]];
     description := "Famous pattern that generates gliders" |}.

Definition pattern_Pulsar : Pattern :=
  {| name := "Pulsar";
     pattern :=
    [[0; 0; 1; 1; 1; 0; 0; 0; 1; 1; 1; 0; 0];
     [0; 0; 0; 0; 0; 0; 0; 0; 0; 0; 0; 0; 0];
     [1; 0; 0; 0; 0; 1; 0; 1; 0; 0; 0; 0; 1];
     [1; 0; 0; 0; 0; 1; 0; 1; 0; 0; 0; 0; 1];
     [1; 0; 0; 0; 0; 1; 0; 1; 0; 0; 0; 0; 1];
     [0; 0; 1; 1; 1; 0; 0; 0; 1; 1; 1; 0; 0];
     [0; 0; 0; 0; 0; 0; 0; 0; 0; 0; 0; 0; 0];
     [0; 0; 1; 1; 1; 0; 0; 0; 1; 1; 1; 0; 0];
     [1; 0; 0; 0; 0; 1; 0; 1; 0; 0; 0; 0; 1];
     [1; 0; 0; 0; 0; 1; 0; 1; 0; 0; 0; 0; 1];
     [1; 0; 0; 0; 0; 1; 0; 1; 0; 0; 0; 0; 1];
     [0; 0; 0; 0; 0; 0; 0; 0; 0; 0; 0; 0; 0];
     [0; 0; 1; 1; 1; 0; 0; 0; 1; 1; 1; 0; 0]];
     description := "Oscillator with period 3" |}.

Definition pattern_Beacon : Pattern :=
  {| name := "Beacon";
     pattern :=
    [[1; 1; 0; 0];
     [1; 1; 0; 0];
     [0; 0; 1; 1];
     [0; 0; 1; 1]];
     description := "Simple period-2 oscillator" |}.

Definition pattern_Toad : Pattern :=
  {| name := "Toad";
     pattern :=
    [[0; 1; 1; 1];
     [1; 1; 1; 0]];
     description := "Period-2 oscillator" |}.

Definition pattern_Blinker : Pattern :=
  {| name := "Blinker";
     pattern :=
    [[1; 1; 1]];
     description := "Simplest oscillator" |}.

Definition pattern_R_pentomino : Pattern :=
  {| name := "R-pentomino";
     pattern :=
    [[0; 1; 1];
     [1; 1; 0];
     [0; 1; 0]];
     description := "Famous methuselah pattern" |}.

Definition pattern_Acorn : Pattern :=
  {| name := "Acorn";
     pattern :=
    [[0; 1; 0; 0; 0; 0; 0];
     [0; 0; 0; 1; 0; 0; 0];
     [1; 1; 0; 0; 1; 1; 1]];
     description := "Long-lived methuselah pattern" |}.

Definition pattern_Lightweight_Spaceship : Pattern :=
  {| name := "LWSS";
     pattern :=
    [[1; 0; 0; 1; 0];
     [0; 0; 0; 0; 1];
     [1; 0; 0; 0; 1];
     [0; 1; 1; 1; 1]];
     description := "Spaceship that moves horizontally" |}.

Definition PATTERNS : list (string * Pattern) :=
  [("Glider"%string, pattern_Glider);
   ("Gosper Gun"%string, pattern_Gosper_Gun);
   ("Pulsar"%string, pattern_Pulsar);
   ("Beacon"%string, pattern_Beacon);
   ("Toad"%string, pattern_Toad);
   ("Blinker"%string, pattern_Blinker);
   ("R-pentomino"%string, pattern_R_pentomino);
   ("Acorn"%string, pattern_Acorn);
   ("Lightweight Spaceship"%string, pattern_Lightweight_Spaceship)].

(** ** GameOfLife_Gemini.py *)

Module Gemini.

(** The fields of the Gemini variant's [GameOfLife] object that the core
    reads or writes. Its grid is a [uint8] array of shape
    [(grid_height, grid_width)]. *)
Record GameOfLife := {
  grid : ndarray;
  prev_grid : ndarray;
  grid_width : Z;
  grid_height : Z;
  generation : Z;
  draw_mode : Z;
  active_pattern : option ndarray
}.

Definition set_grid (g : ndarray) (s : GameOfLife) : GameOfLife :=
  {| grid := g; prev_grid := prev_grid s; grid_width := grid_width s;
     grid_height := grid_height s; generation := generation s;
     draw_mode := draw_mode s; active_pattern := active_pattern s |}.

(** [a.shape] of a matrix. *)
Definition shape (a : ndarray) : Z * Z :=
  (Z.of_nat (length a),
   match a with
   | [] => 0
   | row :: _ => Z.of_nat (length row)
   end).

(** The entry of [a] at [(i, j)], indices inside the array. *)
Definition entry (a : ndarray) (i j : Z) : Z :=
  match a !! Z.to_nat i with
  | Some row => default 0 (row !! Z.to_nat j)
  | None => 0
  end.

(** [scipy.signal.convolve2d(a, k, mode='same', boundary='wrap')]. SciPy is a
    library, not code of the program; this follows its documented definition:
    the full discrete convolution of [k] with the periodic extension of [a],
    cropped to the centred window that has the shape of [a]. *)
Definition convolve2d (a k : ndarray) : ndarray :=
  let '(h, w) := shape a in
  let '(kh, kw) := shape k in
  (fun i => (fun j =>
     sum_over (range kh) (fun m =>
       sum_over (range kw) (fun n =>
         entry k m n *
         entry a ((i + (kh - 1) / 2 - m) mod h) ((j + (kw - 1) / 2 - n) mod w))))
     <$> range w) <$> range h.

Definition kernel : ndarray := [[1; 1; 1]; [1; 0; 1]; [1; 1; 1]].

(** [step]: the vectorised transition. *)
Definition step (s : GameOfLife) : GameOfLife :=
  let neighbor_count := convolve2d (grid s) kernel in
  let born :=
    zip_with (zip_with (fun x n => (x =? 0) && (n =? 3))) (grid s) neighbor_count in
  let survives :=
    zip_with (zip_with (fun x n => (x =? 1) && ((n =? 2) || (n =? 3))))
      (grid s) neighbor_count in
  {| grid := zip_with (zip_with (fun b v => Z.b2z (b || v))) born survives;
     prev_grid := grid s;
     grid_width := grid_width s; grid_height := grid_height s;
     generation := generation s + 1;
     draw_mode := draw_mode s; active_pattern := active_pattern s |}.

(** A slice bound [i] on an axis of length [n], as Python normalises it. *)
Definition slice_bound (n i : Z) : Z :=
  if i <? 0 then Z.max 0 (n + i) else Z.min n i.

(** [l[i:j]] *)
Definition list_slice {A : Type} (l : list A) (i j : Z) : list A :=
  let i' := slice_bound (Z.of_nat (length l)) i in
  let j' := slice_bound (Z.of_nat (length l)) j in
  take (Z.to_nat (j' - i')) (drop (Z.to_nat i') l).

(** [a[y0:y1, x0:x1]] *)
Definition getslice (a : ndarray) (y0 y1 x0 x1 : Z) : ndarray :=
  (fun row => list_slice row x0 x1) <$> list_slice a y0 y1.

(** [a[y0:y1, x0:x1] = b] for a non-empty matrix [b]: numpy broadcasts an
    axis of [b] of length 1 and raises [ValueError] when the shapes do not
    fit. *)
Definition setslice (a : ndarray) (y0 y1 x0 x1 : Z) (b : ndarray) : py ndarray :=
  let '(h, w) := shape a in
  let '(bh, bw) := shape b in
  let ys := slice_bound h y0 in
  let ye := slice_bound h y1 in
  let xs := slice_bound w x0 in
  let xe := slice_bound w x1 in
  if ((bh =? Z.max 0 (ye - ys)) || (bh =? 1)) && ((bw =? Z.max 0 (xe - xs)) || (bw =? 1))
  then
    Ret (imap (fun i row =>
           imap (fun j v =>
             if (ys <=? Z.of_nat i) && (Z.of_nat i <? ye)
                && (xs <=? Z.of_nat j) && (Z.of_nat j <? xe)
             then entry b (if bh =? 1 then 0 else Z.of_nat i - ys)
                          (if bw =? 1 then 0 else Z.of_nat j - xs)
             else v) row) a)
  else Raise ValueError.

(** [place_pattern]; [world] is the grid position [screen_to_world] returns
    for the mouse position, a conversion on floats that is left out. *)
Definition place_pattern (world : Z * Z) (s : GameOfLife) : py GameOfLife :=
  match active_pattern s with
  | None => Ret s
  | Some pat =>
      let '(grid_x, grid_y) := world in
      let '(h, w) := shape pat in
      let grid_x := grid_x - w / 2 in
      let grid_y := grid_y - h / 2 in
      let y_min := Z.max 0 grid_y in
      let y_max := Z.min (grid_height s) (grid_y + h) in
      let x_min := Z.max 0 grid_x in
      let x_max := Z.min (grid_width s) (grid_x + w) in
      let pat_y_min := Z.max 0 (- grid_y) in
      let pat_y_max := h - Z.max 0 (grid_y + h - grid_height s) in
      let pat_x_min := Z.max 0 (- grid_x) in
      let pat_x_max := w - Z.max 0 (grid_x + w - grid_width s) in
      if (y_min <? y_max) && (x_min <? x_max) then
        g ← setslice (grid s) y_min y_max x_min x_max
              (getslice pat pat_y_min pat_y_max pat_x_min pat_x_max);
        Ret (set_grid g s)
      else Ret s
  end.

Definition SCREEN_WIDTH : Z := 1600.
Definition PANEL_WIDTH : Z := 320.

(** [a[r, c] = v] for a Python integer [v] and an array of type [uint8], the
    type of the grid that [__init__] allocates and that [step] produces: the
    position is checked first, and a value outside 0..255 is refused with
    [OverflowError]. *)
Definition setitem_uint8 (a : ndarray) (r c v : Z) : py ndarray :=
  a' ← setitem a r c v;
  if (0 <=? v) && (v <=? 255) then Ret a' else Raise OverflowError.

(** [draw_on_grid]; [mouse_x] is the horizontal mouse position and [world] the
    grid position [screen_to_world] returns for the mouse position.
    [draw_mode] is 0 or 1 wherever the program sets it. *)
Definition draw_on_grid (mouse_x : Z) (world : Z * Z) (s : GameOfLife) : py GameOfLife :=
  if SCREEN_WIDTH - PANEL_WIDTH <=? mouse_x then Ret s
  else
    let '(grid_x, grid_y) := world in
    if (0 <=? grid_x) && (grid_x <? grid_width s) && (0 <=? grid_y) && (grid_y <? grid_height s)
    then
      g ← setitem_uint8 (grid s) grid_y grid_x (1 - draw_mode s);
      v ← getitem g grid_y grid_x;
      pg ← setitem (prev_grid s) grid_y grid_x v;
      Ret {| grid := g; prev_grid := pg; grid_width := grid_width s;
             grid_height := grid_height s; generation := generation s;
             draw_mode := draw_mode s; active_pattern := active_pattern s |}
    else Ret s.

(** [clear_grid]: [self.grid.fill(0)] and the generation reset. *)
Definition clear_grid (s : GameOfLife) : GameOfLife :=
  {| grid := (fun row : list Z => (fun _ : Z => 0) <$> row) <$> grid s;
     prev_grid := prev_grid s; grid_width := grid_width s;
     grid_height := grid_height s; generation := 0;
     draw_mode := draw_mode s; active_pattern := active_pattern s |}.




Definition set_active_pattern (p : option ndarray) (s : GameOfLife) : GameOfLife :=
  {| grid := grid s; prev_grid := prev_grid s; grid_width := grid_width s;
     grid_height := grid_height s; generation := generation s;
     draw_mode := draw_mode s; active_pattern := p |}.



End Gemini.

(** ** Vocabulary of the statements *)

(** [a] has [h] rows of [w] entries. *)
Definition has_shape (h w : Z) (a : ndarray) : bool :=
  (Z.of_nat (length a) =? h) && forallb (fun row => Z.of_nat (length row) =? w) a.

(** Every entry of [a] is 0 or 1. *)
Definition is_binary (a : ndarray) : bool :=
  forallb (forallb (fun v => (v =? 0) || (v =? 1))) a.

(** A grid of the program: [GRID_HEIGHT] by [GRID_WIDTH], cells 0 or 1. *)
Definition well_formed (g : ndarray) : bool :=
  has_shape GRID_HEIGHT GRID_WIDTH g && is_binary g.

(** The value read at a cell, and the neighbour count there; 0 stands in where
    the read raises, which it does not inside a grid of the right shape. *)
Definition cell (g : ndarray) (r c : Z) : Z :=
  match getitem g r c with
  | Ret v => v
  | Raise _ => 0
  end.

Definition neighbors (g : ndarray) (r c : Z) : Z :=
  match get_neighbors g r c with
  | Ret n => n
  | Raise _ => 0
  end.

(** The eight offsets of the Moore neighbourhood. *)
Definition moore_offsets : list (Z * Z) :=
  [(-1, -1); (-1, 0); (-1, 1); (0, -1); (0, 1); (1, -1); (1, 0); (1, 1)].

(** The naive count with the clamped policy: neighbours outside the grid are
    skipped. *)
Definition clamped_count (g : ndarray) (row col : Z) : Z :=
  sum_over moore_offsets (fun d =>
    if in_grid (row + fst d) (col + snd d) then cell g (row + fst d) (col + snd d) else 0).

(** The naive count with the toroidal policy on an [h] by [w] grid:
    coordinates out of range are taken modulo [h] and [w]. *)
Definition toroidal_count (h w : Z) (g : ndarray) (row col : Z) : Z :=
  sum_over moore_offsets (fun d =>
    Gemini.entry g ((row + fst d) mod h) ((col + snd d) mod w)).

(** The number of cells of the grid area at which [p] holds. *)
Definition count_cells (p : Z -> Z -> bool) : Z :=
  sum_over (range GRID_HEIGHT) (fun r =>
    sum_over (range GRID_WIDTH) (fun c => Z.b2z (p r c))).

Definition alive (g : ndarray) (r c : Z) : bool := cell g r c =? 1.

(** A dead cell with exactly three neighbours. *)
Definition is_born (g : ndarray) (r c : Z) : bool :=
  negb (alive g r c) && (neighbors g r c =? 3).

(** A live cell whose neighbour count is neither 2 nor 3. *)
Definition dies (g : ndarray) (r c : Z) : bool :=
  alive g r c && negb ((neighbors g r c =? 2) || (neighbors g r c =? 3)).

(** The transition rule: the next value of a cell whose value is [x] and whose
    neighbour count is [n], as the branches of [update_grid] decide it. *)
Definition rule (x n : Z) : Z :=
  if x =? 1 then (if (n =? 2) || (n =? 3) then 1 else 0)
  else (if n =? 3 then 1 else 0).

(** The next value of the cell at [(r, c)] of [g]. *)
Definition next_state (g : ndarray) (r c : Z) : Z :=
  rule (cell g r c) (neighbors g r c).

(** What one iteration of the inner loop of [get_neighbors] does to [count]
    when the read does not raise. *)
Definition add_neighbor (g : ndarray) (row col count : Z) (d : Z * Z) : Z :=
  if (fst d =? 0) && (snd d =? 0) then count
  else if in_grid (row + fst d) (col + snd d)
       then wrap64 (count + cell g (row + fst d) (col + snd d))
       else count.

(** The grid cell [(r, c)] lies under the pattern [p] anchored with its top
    left corner at row [grid_y], column [grid_x]. *)
Definition under_pattern (p : Pattern) (grid_x grid_y r c : Z) : bool :=
  (grid_y <=? r) && (r <? grid_y + height p) && (grid_x <=? c) && (c <? grid_x + width p).

(** The history invariant: at most [max_history] entries, and a cursor that
    indexes the sequence whenever it is not empty. *)
Definition history_ok (s : GameOfLife) : Prop :=
  Z.of_nat (length (history s)) <= max_history /\
  (history s <> [] -> 0 <= history_index s < Z.of_nat (length (history s))).

(** One operation on the history; [Record g] is [save_to_history] called
    while the live grid is [g]. *)
Inductive history_op :=
| Record (g : ndarray)
| Undo
| Redo.

Definition apply_op (s : GameOfLife) (op : history_op) : py GameOfLife :=
  match op with
  | Record g => Ret (save_to_history (set_grid g s))
  | Undo => undo s
  | Redo => redo s
  end.

Definition run_ops (ops : list history_op) (s : GameOfLife) : py GameOfLife :=
  for_each ops apply_op s.

(** The parsed document has a "grid" entry. *)
Definition has_grid_entry (data : json) : bool :=
  match data with
  | JObject members => bool_decide (is_Some (dict_get "grid" members))
  | _ => false
  end.

(** [a] is an [int]. *)
Definition builtin (a : pyint) : bool :=
  match a with
  | PyInt _ => true
  | NpInt64 _ => false
  end.

(** ** Sample inputs *)

(** A blinker in row 5 of an otherwise empty grid. *)
Definition blinker_grid : ndarray :=
  <[5%nat := <[5%nat := 1]> (<[6%nat := 1]> (<[7%nat := 1]> (replicate 100%nat 0)))]>
    (np_zeros GRID_HEIGHT GRID_WIDTH).

Definition blinker_session : GameOfLife := set_grid blinker_grid GameOfLife_init.

(** The blinker grid with the cell at row 0, column 5 alive as well. *)
Definition marked_grid : ndarray :=
  <[0%nat := <[5%nat := 1]> (replicate 100%nat 0)]> blinker_grid.

(** A session whose statistics record three births in the last step. *)
Definition counted_session : GameOfLife :=
  set_stats
    {| generation := PyInt 7; population := PyInt 3; births := PyInt 3;
       deaths := PyInt 1; max_population := PyInt 5; total_births := PyInt 9;
       total_deaths := PyInt 6 |} blinker_session.

(** A parsed file whose "stats" entry is a number instead of an object. *)
Definition stats_not_an_object : blob :=
  Document (JObject [("grid"%string, JArray [JArray [JInt 1]]);
                     ("stats"%string, JInt 5)]).

(** A blinker on a 3 by 3 torus, as a session of the Gemini variant. *)
Definition small_torus : Gemini.GameOfLife :=
  {| Gemini.grid := [[0; 0; 0]; [1; 1; 1]; [0; 0; 0]];
     Gemini.prev_grid := [[0; 0; 0]; [0; 0; 0]; [0; 0; 0]];
     Gemini.grid_width := 3; Gemini.grid_height := 3;
     Gemini.generation := 0; Gemini.draw_mode := 0;
     Gemini.active_pattern := None |}.

(** The 3 by 3 torus with every cell alive and the glider selected. *)
Definition full_torus : Gemini.GameOfLife :=
  {| Gemini.grid := [[1; 1; 1]; [1; 1; 1]; [1; 1; 1]];
     Gemini.prev_grid := [[0; 0; 0]; [0; 0; 0]; [0; 0; 0]];
     Gemini.grid_width := 3; Gemini.grid_height := 3;
     Gemini.generation := 0; Gemini.draw_mode := 0;
     Gemini.active_pattern := Some [[0; 1; 0]; [0; 0; 1]; [1; 1; 1]] |}.

(** A session after two recorded edits: the history holds the empty grid and
    the blinker grid, the cursor is on the second entry. *)
Definition edited_session : GameOfLife :=
  set_grid marked_grid
    (save_to_history (set_grid blinker_grid (save_to_history GameOfLife_init))).

(** The cell under the pixel [(x, y)] of the window lies in the grid. *)
Definition hits (s : GameOfLife) (p : Z * Z) : bool :=
  in_grid ((snd p - grid_offset_y s) / CELL_SIZE) ((fst p - grid_offset_x s) / CELL_SIZE).

(** * Properties *)

(** Reduce a bind whose first computation is a value or an exception. *)
Ltac py_step := cbn [mbind py_bind mret py_ret].

(** ** Loops *)

Section loops.
Context {A St : Type}.

Lemma for_each_app (xs ys : list A) (body : St -> A -> py St) (s : St) :
  for_each (xs ++ ys) body s = (s' ← for_each xs body s; for_each ys body s').
Proof.
  revert s. induction xs as [|x xs IH]; intros s; simpl; [done|].
  destruct (body s x) as [s'|e]; simpl; [apply IH | done].
Qed.

(** A loop whose body never raises is a left fold. *)
Lemma for_each_pure (f : St -> A -> St) (xs : list A) (body : St -> A -> py St) (s : St) :
  (forall s x, x ∈ xs -> body s x = Ret (f s x)) ->
  for_each xs body s = Ret (foldl f s xs).
Proof.
  revert s. induction xs as [|x xs IH]; intros s Hbody; simpl; [done|].
  rewrite Hbody by left. simpl. apply IH. intros s' y Hy. apply Hbody. by right.
Qed.

(** Invariant rule for [for i in range(n)], the invariant indexed by the
    number of iterations made. *)
Lemma for_range_inv (I : Z -> St -> Prop) (n : Z) (body : St -> Z -> py St) (s0 : St) :
  0 <= n ->
  I 0 s0 ->
  (forall i s, 0 <= i < n -> I i s -> exists s', body s i = Ret s' /\ I (i + 1) s') ->
  exists s', for_each (range n) body s0 = Ret s' /\ I n s'.
Proof.
  intros Hn H0 Hstep. unfold range.
  assert (Hgen : forall k m s, 0 <= m -> m + Z.of_nat k = n -> I m s ->
            exists s', for_each (seqZ m (Z.of_nat k)) body s = Ret s' /\ I n s').
  { induction k as [|k IH]; intros m s Hm Hk Hs.
    - rewrite seqZ_nil by lia. simpl. exists s. split; [done|].
      replace n with m by lia. done.
    - rewrite seqZ_cons by lia. simpl.
      destruct (Hstep m s) as (s' & Hb & Hs'); [lia|done|].
      rewrite Hb. simpl.
      replace (Z.pred (Z.of_nat (S k))) with (Z.of_nat k) by lia.
      apply IH; [lia|lia|]. by replace (Z.succ m) with (m + 1) by lia. }
  destruct (Hgen (Z.to_nat n) 0 s0) as (s' & Hs' & HI); [lia|lia|done|].
  exists s'. split; [|done]. by rewrite Z2Nat.id in Hs' by lia.
Qed.
End loops.

Lemma sum_over_app {A : Type} (xs ys : list A) (f : A -> Z) :
  sum_over (xs ++ ys) f = sum_over xs f + sum_over ys f.
Proof. unfold sum_over. induction xs as [|x xs IH]; simpl; lia. Qed.

Lemma sum_over_ext {A : Type} (xs : list A) (f g : A -> Z) :
  (forall x, x ∈ xs -> f x = g x) -> sum_over xs f = sum_over xs g.
Proof.
  unfold sum_over. induction xs as [|x xs IH]; intros H; simpl; [done|].
  rewrite H by left. rewrite IH; [done|]. intros y Hy. apply H. by right.
Qed.

Lemma range_succ (n : Z) : 0 <= n -> range (n + 1) = range n ++ [n].
Proof.
  intros Hn. unfold range. rewrite seqZ_app by lia.
  reflexivity.
Qed.

Lemma sum_over_range_succ (n : Z) (f : Z -> Z) :
  0 <= n -> sum_over (range (n + 1)) f = sum_over (range n) f + f n.
Proof. intros Hn. rewrite range_succ, sum_over_app by done. unfold sum_over. simpl. lia. Qed.

Lemma sum_over_range_0 (f : Z -> Z) : sum_over (range 0) f = 0.
Proof. done. Qed.

(** ** Arrays *)

Lemma wrap64_small (z : Z) :
  -9223372036854775808 <= z < 9223372036854775808 -> wrap64 z = z.
Proof. intros Hz. unfold wrap64. rewrite Z.mod_small by lia. lia. Qed.

Lemma axis_index_in (n : nat) (i : Z) :
  0 <= i < Z.of_nat n -> axis_index n i = Ret (Z.to_nat i).
Proof.
  intros Hi. unfold axis_index.
  destruct (Z.leb_spec 0 i), (Z.ltb_spec i (Z.of_nat n)); simpl; done || lia.
Qed.

Lemma axis_index_above (n : nat) (i : Z) :
  Z.of_nat n <= i -> axis_index n i = Raise IndexError.
Proof.
  intros Hi. unfold axis_index.
  destruct (Z.leb_spec 0 i), (Z.ltb_spec i (Z.of_nat n)), (Z.ltb_spec i 0),
    (Z.leb_spec (- Z.of_nat n) i); simpl; done || lia.
Qed.

Lemma has_shape_spec (h w : Z) (a : ndarray) :
  has_shape h w a = true <->
  Z.of_nat (length a) = h /\ Forall (fun row => Z.of_nat (length row) = w) a.
Proof.
  unfold has_shape. rewrite andb_true_iff, Z.eqb_eq, forallb_forall, Forall_forall.
  split; intros [H1 H2]; (split; [done|]); intros row Hrow.
  - apply Z.eqb_eq, H2. by apply list_elem_of_In.
  - apply Z.eqb_eq, H2. by apply list_elem_of_In.
Qed.

Lemma has_shape_length (h w : Z) (a : ndarray) :
  has_shape h w a = true -> Z.of_nat (length a) = h.
Proof. intros H. by apply has_shape_spec in H as [? _]. Qed.

Lemma has_shape_row (h w : Z) (a : ndarray) (i : nat) (row : list Z) :
  has_shape h w a = true -> a !! i = Some row -> Z.of_nat (length row) = w.
Proof.
  intros H Hrow. apply has_shape_spec in H as [_ H].
  by apply (Forall_lookup_1 _ _ _ _ H Hrow).
Qed.

(** Inside an array of the stated shape a read returns. *)
Lemma getitem_in (h w : Z) (a : ndarray) (r c : Z) :
  has_shape h w a = true -> 0 <= r < h -> 0 <= c < w ->
  exists row v, a !! Z.to_nat r = Some row /\ row !! Z.to_nat c = Some v /\
                getitem a r c = Ret v.
Proof.
  intros Ha Hr Hc. pose proof (has_shape_length _ _ _ Ha) as Hlen.
  destruct (lookup_lt_is_Some_2 a (Z.to_nat r)) as [row Hrow]; [lia|].
  pose proof (has_shape_row _ _ _ _ _ Ha Hrow) as Hw.
  destruct (lookup_lt_is_Some_2 row (Z.to_nat c)) as [v Hv]; [lia|].
  exists row, v. split; [done|]. split; [done|].
  unfold getitem. rewrite axis_index_in by lia. py_step. rewrite Hrow.
  rewrite axis_index_in by lia. py_step. by rewrite Hv.
Qed.

Lemma getitem_cell (h w : Z) (a : ndarray) (r c : Z) :
  has_shape h w a = true -> 0 <= r < h -> 0 <= c < w ->
  getitem a r c = Ret (cell a r c).
Proof.
  intros Ha Hr Hc. destruct (getitem_in h w a r c) as (row & v & _ & _ & Hg); [done..|].
  unfold cell. by rewrite Hg.
Qed.

Lemma cell_entry (h w : Z) (a : ndarray) (r c : Z) :
  has_shape h w a = true -> 0 <= r < h -> 0 <= c < w ->
  cell a r c = Gemini.entry a r c.
Proof.
  intros Ha Hr Hc. destruct (getitem_in h w a r c) as (row & v & Hrow & Hv & Hg); [done..|].
  unfold cell, Gemini.entry. by rewrite Hg, Hrow, Hv.
Qed.

(** Inside an array of the stated shape a write returns, keeps the shape and
    changes the one entry. *)
Lemma setitem_in (h w : Z) (a : ndarray) (r c v : Z) :
  has_shape h w a = true -> 0 <= r < h -> 0 <= c < w ->
  exists a', setitem a r c v = Ret a' /\ has_shape h w a' = true /\
    forall r' c', 0 <= r' < h -> 0 <= c' < w ->
      cell a' r' c' = if (r' =? r) && (c' =? c) then v else cell a r' c'.
Proof.
  intros Ha Hr Hc. pose proof (has_shape_length _ _ _ Ha) as Hlen.
  destruct (getitem_in h w a r c) as (row & v0 & Hrow & Hv0 & _); [done..|].
  pose proof (has_shape_row _ _ _ _ _ Ha Hrow) as Hw.
  exists (<[Z.to_nat r := <[Z.to_nat c := v]> row]> a).
  assert (Ha' : has_shape h w (<[Z.to_nat r := <[Z.to_nat c := v]> row]> a) = true).
  { apply has_shape_spec. rewrite length_insert. split; [done|].
    apply Forall_insert; [by apply has_shape_spec in Ha as [_ ?]|].
    by rewrite length_insert. }
  split; [|split; [done|]].
  - unfold setitem. rewrite axis_index_in by lia. py_step. rewrite Hrow.
    by rewrite axis_index_in by lia.
  - intros r' c' Hr' Hc'.
    destruct (getitem_in h w _ r' c' Ha' Hr' Hc') as (row' & v' & Hrow' & Hv' & Hg').
    destruct (getitem_in h w a r' c' Ha Hr' Hc') as (row1 & v1 & Hrow1 & Hv1 & Hg1).
    unfold cell. rewrite Hg', Hg1.
    destruct (Z.eqb_spec r' r) as [->|Hne]; simpl.
    + rewrite list_lookup_insert_eq in Hrow' by lia. injection Hrow' as <-.
      destruct (Z.eqb_spec c' c) as [->|Hnc].
      * rewrite list_lookup_insert_eq in Hv' by lia. congruence.
      * rewrite list_lookup_insert_ne in Hv' by lia. congruence.
    + rewrite list_lookup_insert_ne in Hrow' by lia. congruence.
Qed.

(** ** The grid area *)

Lemma GRID_HEIGHT_pos : 0 < GRID_HEIGHT.
Proof. done. Qed.

Lemma GRID_WIDTH_pos : 0 < GRID_WIDTH.
Proof. done. Qed.

Lemma in_grid_spec (r c : Z) :
  in_grid r c = true <-> (0 <= r < GRID_HEIGHT /\ 0 <= c < GRID_WIDTH).
Proof. unfold in_grid. rewrite !andb_true_iff, !Z.leb_le, !Z.ltb_lt. lia. Qed.

Lemma np_zeros_shape (h w : Z) : 0 <= h -> 0 <= w -> has_shape h w (np_zeros h w) = true.
Proof.
  intros Hh Hw. apply has_shape_spec. unfold np_zeros.
  rewrite length_replicate. split; [lia|].
  apply Forall_replicate. rewrite length_replicate. lia.
Qed.

Lemma np_zeros_cell (h w r c : Z) : 0 <= r < h -> 0 <= c < w -> cell (np_zeros h w) r c = 0.
Proof.
  intros Hr Hc.
  destruct (getitem_in h w (np_zeros h w) r c) as (row & v & Hrow & Hv & Hg);
    [apply np_zeros_shape; lia|done..|].
  unfold cell. rewrite Hg. unfold np_zeros in Hrow.
  apply lookup_replicate in Hrow as [-> _]. by apply lookup_replicate in Hv as [-> _].
Qed.

Lemma well_formed_shape (g : ndarray) :
  well_formed g = true -> has_shape GRID_HEIGHT GRID_WIDTH g = true.
Proof. unfold well_formed. by intros [? _]%andb_true_iff. Qed.

Lemma is_binary_spec (g : ndarray) :
  is_binary g = true <-> Forall (Forall (fun v => v = 0 \/ v = 1)) g.
Proof.
  unfold is_binary. rewrite forallb_forall, Forall_forall.
  split; intros H row Hrow.
  - apply list_elem_of_In, H in Hrow. rewrite forallb_forall in Hrow.
    apply Forall_forall. intros v Hv. apply list_elem_of_In, Hrow in Hv.
    apply orb_true_iff in Hv. rewrite !Z.eqb_eq in Hv. done.
  - apply list_elem_of_In, H in Hrow. rewrite Forall_forall in Hrow.
    apply forallb_forall. intros v Hv. apply list_elem_of_In, Hrow in Hv.
    apply orb_true_iff. by rewrite !Z.eqb_eq.
Qed.

Lemma binary_cell (h w : Z) (g : ndarray) (r c : Z) :
  has_shape h w g = true -> is_binary g = true -> 0 <= r < h -> 0 <= c < w ->
  cell g r c = 0 \/ cell g r c = 1.
Proof.
  intros Hs Hb Hr Hc.
  destruct (getitem_in h w g r c) as (row & v & Hrow & Hv & Hg); [done..|].
  unfold cell. rewrite Hg. apply is_binary_spec in Hb.
  pose proof (Forall_lookup_1 _ _ _ _ Hb Hrow) as Hb'. simpl in Hb'.
  by apply (Forall_lookup_1 _ _ _ _ Hb' Hv).
Qed.

(** ** get_neighbors *)

(** On a grid of the right shape no read of [get_neighbors] raises; the count
    is the fold of [add_neighbor] over the nine offsets in loop order. *)
Lemma get_neighbors_fold (g : ndarray) (row col : Z) :
  has_shape GRID_HEIGHT GRID_WIDTH g = true ->
  get_neighbors g row col =
  Ret (foldl (add_neighbor g row col) 0
         [(-1, -1); (-1, 0); (-1, 1); (0, -1); (0, 0); (0, 1); (1, -1); (1, 0); (1, 1)]).
Proof.
  intros Hs. unfold get_neighbors.
  rewrite (for_each_pure (fun count dr =>
             foldl (fun count dc => add_neighbor g row col count (dr, dc)) count [-1; 0; 1])).
  { reflexivity. }
  intros count dr _. apply for_each_pure. intros count' dc _.
  unfold add_neighbor. simpl fst. simpl snd.
  destruct ((dr =? 0) && (dc =? 0)); [done|].
  destruct (in_grid (row + dr) (col + dc)) eqn:Hin; [|done].
  apply in_grid_spec in Hin as [? ?].
  by rewrite (getitem_cell GRID_HEIGHT GRID_WIDTH) by done.
Qed.

Lemma get_neighbors_returns (g : ndarray) (row col : Z) :
  has_shape GRID_HEIGHT GRID_WIDTH g = true ->
  get_neighbors g row col = Ret (neighbors g row col).
Proof. intros Hs. unfold neighbors. by rewrite get_neighbors_fold. Qed.

(** The contribution of one offset to the clamped count. *)
Lemma add_neighbor_sum (g : ndarray) (row col : Z) (ds : list (Z * Z)) (count : Z) :
  well_formed g = true ->
  0 <= count -> count + Z.of_nat (length ds) < 1000 ->
  let n := foldl (add_neighbor g row col) count ds in
  n = count + sum_over ds (fun d =>
        if (fst d =? 0) && (snd d =? 0) then 0
        else if in_grid (row + fst d) (col + snd d)
             then cell g (row + fst d) (col + snd d) else 0) /\
  count <= n <= count + Z.of_nat (length ds).
Proof.
  intros Hwf. apply andb_true_iff in Hwf as [Hs Hb].
  revert count. induction ds as [|d ds IH]; intros count H0 Hlen; simpl.
  { unfold sum_over. simpl. lia. }
  simpl in Hlen.
  assert (Hstep : exists x, 0 <= x <= 1 /\ add_neighbor g row col count d = count + x /\
            x = (if (fst d =? 0) && (snd d =? 0) then 0
                 else if in_grid (row + fst d) (col + snd d)
                      then cell g (row + fst d) (col + snd d) else 0)).
  { unfold add_neighbor. destruct ((fst d =? 0) && (snd d =? 0)).
    { exists 0. lia. }
    destruct (in_grid (row + fst d) (col + snd d)) eqn:Hin.
    - apply in_grid_spec in Hin as [? ?].
      destruct (binary_cell _ _ g (row + fst d) (col + snd d) Hs Hb) as [Hc|Hc]; [done..| |];
        rewrite Hc; [exists 0|exists 1]; rewrite wrap64_small by lia; lia.
    - exists 0. lia. }
  destruct Hstep as (x & Hx & -> & Hxeq).
  destruct (IH (count + x)) as [IH1 IH2]; [lia..|].
  cbv zeta in IH1, IH2. rewrite IH1. unfold sum_over at 2. simpl. fold (sum_over ds).
  rewrite <- Hxeq. unfold sum_over in *. lia.
Qed.

(** On a well-formed grid [get_neighbors] returns the clamped count over the
    eight Moore offsets, a number between 0 and 8. *)
Lemma get_neighbors_clamped (g : ndarray) (row col : Z) :
  well_formed g = true ->
  get_neighbors g row col = Ret (clamped_count g row col) /\
  0 <= clamped_count g row col <= 8.
Proof.
  intros Hwf. rewrite get_neighbors_fold by by apply well_formed_shape.
  pose proof (add_neighbor_sum g row col
    [(-1, -1); (-1, 0); (-1, 1); (0, -1); (0, 0); (0, 1); (1, -1); (1, 0); (1, 1)]
    0 Hwf) as H.
  cbv zeta in H. destruct H as [Heq Hb]; [lia|simpl; lia|].
  assert (Hsum : sum_over
      [(-1, -1); (-1, 0); (-1, 1); (0, -1); (0, 0); (0, 1); (1, -1); (1, 0); (1, 1)]
      (fun d => if (fst d =? 0) && (snd d =? 0) then 0
                else if in_grid (row + fst d) (col + snd d)
                     then cell g (row + fst d) (col + snd d) else 0)
    = clamped_count g row col).
  { unfold clamped_count, moore_offsets, sum_over. simpl. lia. }
  rewrite Hsum in Heq. rewrite Heq. split; [done|].
  assert (Hle : forall ds, 0 <= sum_over ds (fun d : Z * Z =>
              if in_grid (row + fst d) (col + snd d)
              then cell g (row + fst d) (col + snd d) else 0) <= Z.of_nat (length ds)).
  { apply andb_true_iff in Hwf as [Hs Hbin].
    induction ds as [|d ds IH]; unfold sum_over; simpl; [lia|].
    fold (sum_over ds). unfold sum_over in IH.
    destruct (in_grid (row + fst d) (col + snd d)) eqn:Hin; [|lia].
    apply in_grid_spec in Hin as [? ?].
    destruct (binary_cell _ _ g (row + fst d) (col + snd d) Hs Hbin); [done..| |]; lia. }
  exact (Hle moore_offsets).
Qed.

(** ** update_grid *)

Section transition.
Variable g : ndarray.
Hypothesis g_shape : has_shape GRID_HEIGHT GRID_WIDTH g = true.

(** One iteration of the inner loop at a cell not yet written. *)
Lemma update_cell_ok (new : ndarray) (b d row col : Z) :
  has_shape GRID_HEIGHT GRID_WIDTH new = true ->
  0 <= row < GRID_HEIGHT -> 0 <= col < GRID_WIDTH ->
  cell new row col = 0 ->
  exists new',
    update_cell g row (new, b, d) col =
      Ret (new', b + Z.b2z (is_born g row col), d + Z.b2z (dies g row col)) /\
    has_shape GRID_HEIGHT GRID_WIDTH new' = true /\
    forall r' c', 0 <= r' < GRID_HEIGHT -> 0 <= c' < GRID_WIDTH ->
      cell new' r' c' =
      if (r' =? row) && (c' =? col) then next_state g row col else cell new r' c'.
Proof.
  intros Hnew Hrow Hcol Hzero. unfold update_cell.
  rewrite get_neighbors_returns by done. py_step.
  rewrite (getitem_cell GRID_HEIGHT GRID_WIDTH) by done. py_step.
  destruct (setitem_in _ _ new row col 1 Hnew Hrow Hcol) as (new1 & Hset & Hshape1 & Hcells1).
  unfold is_born, dies, alive, next_state, rule.
  assert (Hkeep : forall r' c', 0 <= r' < GRID_HEIGHT -> 0 <= c' < GRID_WIDTH ->
            cell new r' c' = if (r' =? row) && (c' =? col) then 0 else cell new r' c').
  { intros r' c' _ _. destruct (Z.eqb_spec r' row) as [->|]; [|done].
    destruct (Z.eqb_spec c' col) as [->|]; done. }
  destruct (cell g row col =? 1); simpl.
  - destruct ((neighbors g row col =? 2) || (neighbors g row col =? 3)); simpl.
    + rewrite Hset. py_step. exists new1. by rewrite !Z.add_0_r.
    + exists new. by rewrite !Z.add_0_r.
  - destruct (neighbors g row col =? 3); simpl.
    + rewrite Hset. py_step. exists new1. by rewrite !Z.add_0_r.
    + exists new. by rewrite !Z.add_0_r.
Qed.

(** The births and deaths counted in row [r]. *)
Let row_births (r : Z) : Z := sum_over (range GRID_WIDTH) (fun c => Z.b2z (is_born g r c)).
Let row_deaths (r : Z) : Z := sum_over (range GRID_WIDTH) (fun c => Z.b2z (dies g r c)).

(** The inner loop over one row. *)
Lemma update_row_ok (new : ndarray) (b d row : Z) :
  has_shape GRID_HEIGHT GRID_WIDTH new = true ->
  0 <= row < GRID_HEIGHT ->
  (forall r' c', 0 <= r' < GRID_HEIGHT -> 0 <= c' < GRID_WIDTH ->
     cell new r' c' = if r' <? row then next_state g r' c' else 0) ->
  exists new',
    for_each (range GRID_WIDTH) (update_cell g row) (new, b, d) =
      Ret (new', b + row_births row, d + row_deaths row) /\
    has_shape GRID_HEIGHT GRID_WIDTH new' = true /\
    forall r' c', 0 <= r' < GRID_HEIGHT -> 0 <= c' < GRID_WIDTH ->
      cell new' r' c' = if r' <? row + 1 then next_state g r' c' else 0.
Proof.
  intros Hnew Hrow Hcells.
  destruct (for_range_inv
    (fun j (acc : ndarray * Z * Z) =>
       has_shape GRID_HEIGHT GRID_WIDTH (acc.1.1) = true /\
       (forall r' c', 0 <= r' < GRID_HEIGHT -> 0 <= c' < GRID_WIDTH ->
          cell (acc.1.1) r' c' =
          if (r' <? row) || ((r' =? row) && (c' <? j)) then next_state g r' c' else 0) /\
       acc.1.2 = b + sum_over (range j) (fun c => Z.b2z (is_born g row c)) /\
       acc.2 = d + sum_over (range j) (fun c => Z.b2z (dies g row c)))
    GRID_WIDTH (update_cell g row) (new, b, d)) as (acc & Hrun & Hs & Hc & Hb & Hd).
  - pose proof GRID_WIDTH_pos. lia.
  - cbn [fst snd]. split; [done|]. split; [|rewrite !sum_over_range_0; lia].
    intros r' c' Hr' Hc'. rewrite Hcells by done.
    destruct (Z.ltb_spec r' row), (Z.eqb_spec r' row), (Z.ltb_spec c' 0); simpl; done || lia.
  - intros j [[new1 b1] d1] Hj (Hs1 & Hc1 & Hb1 & Hd1). cbn [fst snd] in *.
    destruct (update_cell_ok new1 b1 d1 row j) as (new2 & Hupd & Hs2 & Hc2); [done..| |].
    { rewrite Hc1 by done.
      destruct (Z.ltb_spec row row), (Z.eqb_spec row row), (Z.ltb_spec j j); simpl; done || lia. }
    eexists. split; [exact Hupd|]. cbn [fst snd]. split; [done|]. split.
    + intros r' c' Hr' Hc'. rewrite Hc2, Hc1 by done.
      destruct (Z.ltb_spec r' row), (Z.eqb_spec r' row), (Z.eqb_spec c' j),
        (Z.ltb_spec c' j), (Z.ltb_spec c' (j + 1)); simpl; subst; done || lia.
    + rewrite !sum_over_range_succ by lia. lia.
  - destruct acc as [[new' b'] d']. cbn [fst snd] in *. subst b' d'.
    exists new'. split; [done|]. split; [done|].
    intros r' c' Hr' Hc'. rewrite Hc by done.
    destruct (Z.ltb_spec r' row), (Z.eqb_spec r' row), (Z.ltb_spec c' GRID_WIDTH),
      (Z.ltb_spec r' (row + 1)); simpl; done || lia.
Qed.

(** The two loops of [update_grid]: they return, every cell of the result is
    the rule applied to the old grid, and the counters count the cells
    born and the cells that died. *)
Lemma next_generation_ok :
  exists new,
    next_generation g = Ret (new, count_cells (is_born g), count_cells (dies g)) /\
    has_shape GRID_HEIGHT GRID_WIDTH new = true /\
    forall r c, 0 <= r < GRID_HEIGHT -> 0 <= c < GRID_WIDTH ->
      cell new r c = next_state g r c.
Proof.
  pose proof GRID_HEIGHT_pos. pose proof GRID_WIDTH_pos.
  destruct (for_range_inv
    (fun i (acc : ndarray * Z * Z) =>
       has_shape GRID_HEIGHT GRID_WIDTH (acc.1.1) = true /\
       (forall r' c', 0 <= r' < GRID_HEIGHT -> 0 <= c' < GRID_WIDTH ->
          cell (acc.1.1) r' c' = if r' <? i then next_state g r' c' else 0) /\
       acc.1.2 = sum_over (range i) row_births /\
       acc.2 = sum_over (range i) row_deaths)
    GRID_HEIGHT
    (fun acc row => for_each (range GRID_WIDTH) (update_cell g row) acc)
    (np_zeros GRID_HEIGHT GRID_WIDTH, 0, 0)) as (acc & Hrun & Hs & Hc & Hb & Hd).
  - lia.
  - cbn [fst snd]. split; [apply np_zeros_shape; lia|]. split; [|done].
    intros r' c' Hr' Hc'. rewrite np_zeros_cell by done.
    destruct (Z.ltb_spec r' 0); done || lia.
  - intros i [[new1 b1] d1] Hi (Hs1 & Hc1 & Hb1 & Hd1). cbn [fst snd] in *.
    destruct (update_row_ok new1 b1 d1 i) as (new2 & Hupd & Hs2 & Hc2); [done..|].
    eexists. split; [exact Hupd|]. cbn [fst snd]. split; [done|]. split; [done|].
    rewrite !sum_over_range_succ by lia. lia.
  - destruct acc as [[new b] d]. cbn [fst snd] in *. subst b d.
    exists new. split; [done|]. split; [done|].
    intros r c Hr Hc'. rewrite Hc by done. destruct (Z.ltb_spec r GRID_HEIGHT); done || lia.
Qed.
End transition.

(** ** Counting cells *)

Lemma sum_over_bounds {A : Type} (xs : list A) (f : A -> Z) (k : Z) :
  (forall x, x ∈ xs -> 0 <= f x <= k) ->
  0 <= sum_over xs f <= Z.of_nat (length xs) * k.
Proof.
  unfold sum_over. induction xs as [|x xs IH]; intros H; simpl; [lia|].
  assert (0 <= f x <= k) by (apply H; left).
  assert (0 <= foldr (fun x acc => f x + acc) 0 xs <= Z.of_nat (length xs) * k).
  { apply IH. intros y Hy. apply H. by right. }
  lia.
Qed.

(** A sum over a list is the sum over its indices. *)
Lemma sum_over_indices {A : Type} (l : list A) (f : A -> Z) :
  sum_over l f =
  sum_over (range (Z.of_nat (length l)))
    (fun i => match l !! Z.to_nat i with Some x => f x | None => 0 end).
Proof.
  induction l as [|x l IH] using rev_ind; [done|].
  rewrite length_app. simpl length.
  replace (Z.of_nat (length l + 1)) with (Z.of_nat (length l) + 1) by lia.
  rewrite sum_over_app, sum_over_range_succ by lia.
  rewrite Nat2Z.id, list_lookup_middle by done.
  rewrite IH. unfold sum_over at 2. simpl. rewrite Z.add_0_r. f_equal.
  apply sum_over_ext. intros i Hi. apply elem_of_seqZ in Hi.
  by rewrite lookup_app_l by lia.
Qed.

Lemma length_range (n : Z) : length (range n) = Z.to_nat n.
Proof. apply length_seqZ. Qed.

Lemma count_cells_bounds (p : Z -> Z -> bool) :
  0 <= count_cells p <= GRID_HEIGHT * GRID_WIDTH.
Proof.
  unfold count_cells.
  pose proof (sum_over_bounds (range GRID_HEIGHT)
    (fun r => sum_over (range GRID_WIDTH) (fun c => Z.b2z (p r c))) GRID_WIDTH) as H.
  rewrite length_range, Z2Nat.id in H by done. apply H. intros r _.
  pose proof (sum_over_bounds (range GRID_WIDTH) (fun c => Z.b2z (p r c)) 1) as H'.
  rewrite length_range, Z2Nat.id in H' by done.
  rewrite Z.mul_1_r in H'. apply H'. intros c _. destruct (p r c); simpl; lia.
Qed.

(** The sum of a 0/1 matrix of the grid's shape is its number of live cells. *)
Lemma grid_sum_alive (a : ndarray) :
  has_shape GRID_HEIGHT GRID_WIDTH a = true ->
  (forall r c, 0 <= r < GRID_HEIGHT -> 0 <= c < GRID_WIDTH -> cell a r c = 0 \/ cell a r c = 1) ->
  grid_sum a = count_cells (alive a).
Proof.
  intros Hs Hbin. pose proof (has_shape_length _ _ _ Hs) as Hlen.
  change (grid_sum a) with (sum_over a row_sum).
  rewrite sum_over_indices, Hlen. unfold count_cells.
  apply sum_over_ext. intros r Hr. apply elem_of_seqZ in Hr.
  destruct (lookup_lt_is_Some_2 a (Z.to_nat r)) as [row Hrow]; [lia|].
  rewrite Hrow. pose proof (has_shape_row _ _ _ _ _ Hs Hrow) as Hw.
  change (row_sum row) with (sum_over row (fun v => v)).
  rewrite sum_over_indices, Hw.
  apply sum_over_ext. intros c Hc. apply elem_of_seqZ in Hc.
  destruct (getitem_in _ _ a r c Hs) as (row' & v & Hrow' & Hv & Hg); [lia..|].
  assert (row' = row) as -> by congruence. rewrite Hv.
  unfold alive. specialize (Hbin r c). unfold cell in *. rewrite Hg in *.
  destruct Hbin as [->| ->]; done || lia.
Qed.

Lemma cells_binary (h w : Z) (a : ndarray) :
  has_shape h w a = true ->
  (forall r c, 0 <= r < h -> 0 <= c < w -> cell a r c = 0 \/ cell a r c = 1) ->
  is_binary a = true.
Proof.
  intros Hs Hbin. pose proof (has_shape_length _ _ _ Hs) as Hlen.
  apply is_binary_spec. apply Forall_lookup_2. intros i row Hrow.
  pose proof (has_shape_row _ _ _ _ _ Hs Hrow) as Hw.
  apply Forall_lookup_2. intros j v Hv.
  pose proof (lookup_lt_Some _ _ _ Hrow). pose proof (lookup_lt_Some _ _ _ Hv).
  destruct (getitem_in h w a (Z.of_nat i) (Z.of_nat j) Hs) as (row' & v' & Hrow' & Hv' & Hg);
    [lia..|].
  rewrite Nat2Z.id in Hrow', Hv'.
  assert (row' = row) as -> by congruence. assert (v' = v) as -> by congruence.
  specialize (Hbin (Z.of_nat i) (Z.of_nat j)). unfold cell in Hbin. rewrite Hg in Hbin.
  apply Hbin; lia.
Qed.

Lemma rule_binary (x n : Z) : rule x n = 0 \/ rule x n = 1.
Proof.
  unfold rule. destruct (x =? 1), ((n =? 2) || (n =? 3)), (n =? 3); auto.
Qed.

(** The rule in words: a live cell survives with two or three neighbours, any
    other cell comes alive with exactly three. *)
Lemma rule_spec (x n : Z) :
  (x = 1 -> (rule x n = 1 <-> n = 2 \/ n = 3)) /\
  (x <> 1 -> (rule x n = 1 <-> n = 3)).
Proof.
  unfold rule. destruct (Z.eqb_spec x 1), (Z.eqb_spec n 2), (Z.eqb_spec n 3); simpl;
    split; intros; try done; split; intros; try done; try lia; auto.
Qed.

(** ** The Gemini variant's step *)

Lemma lookup_range (n i : Z) : 0 <= i < n -> range n !! Z.to_nat i = Some i.
Proof.
  intros Hi. unfold range. rewrite lookup_seqZ_lt by lia. f_equal. lia.
Qed.

(** A matrix given entry by entry. *)
Lemma tabulate_entry (h w : Z) (F : Z -> Z -> Z) (r c : Z) :
  0 <= r < h -> 0 <= c < w ->
  Gemini.entry ((fun i => (fun j => F i j) <$> range w) <$> range h) r c = F r c.
Proof.
  intros Hr Hc. unfold Gemini.entry.
  rewrite list_lookup_fmap, lookup_range by done. simpl.
  by rewrite list_lookup_fmap, lookup_range by done.
Qed.

Lemma tabulate_shape (h w : Z) (F : Z -> Z -> Z) :
  0 <= h -> 0 <= w ->
  has_shape h w ((fun i => (fun j => F i j) <$> range w) <$> range h) = true.
Proof.
  intros Hh Hw. apply has_shape_spec. rewrite length_fmap, length_range.
  split; [lia|]. apply Forall_fmap, Forall_forall. intros i _. simpl.
  rewrite length_fmap, length_range. lia.
Qed.

Lemma shape_of (h w : Z) (a : ndarray) :
  has_shape h w a = true -> 0 < h -> Gemini.shape a = (h, w).
Proof.
  intros Hs Hh. pose proof (has_shape_length _ _ _ Hs) as Hlen.
  unfold Gemini.shape. destruct a as [|row a]; [simpl in Hlen; lia|].
  by rewrite Hlen, (has_shape_row h w (row :: a) 0 row).
Qed.

(** The convolution with the program's kernel is the naive toroidal count. *)
Lemma convolve2d_toroidal (h w : Z) (g : ndarray) (r c : Z) :
  has_shape h w g = true -> 0 <= r < h -> 0 <= c < w ->
  Gemini.entry (Gemini.convolve2d g Gemini.kernel) r c = toroidal_count h w g r c.
Proof.
  intros Hs Hr Hc. unfold Gemini.convolve2d.
  rewrite (shape_of h w) by (done || lia).
  change (Gemini.shape Gemini.kernel) with (3, 3). cbv beta iota.
  rewrite (tabulate_entry h w) by done.
  change (range 3) with [0; 1; 2]. change ((3 - 1) / 2) with 1.
  unfold toroidal_count, moore_offsets, sum_over. cbn [foldr fst snd].
  change (Gemini.entry Gemini.kernel 0 0) with 1.
  change (Gemini.entry Gemini.kernel 0 1) with 1.
  change (Gemini.entry Gemini.kernel 0 2) with 1.
  change (Gemini.entry Gemini.kernel 1 0) with 1.
  change (Gemini.entry Gemini.kernel 1 1) with 0.
  change (Gemini.entry Gemini.kernel 1 2) with 1.
  change (Gemini.entry Gemini.kernel 2 0) with 1.
  change (Gemini.entry Gemini.kernel 2 1) with 1.
  change (Gemini.entry Gemini.kernel 2 2) with 1.
  replace (r + 1 - 0) with (r + 1) by lia. replace (r + 1 - 1) with (r + 0) by lia.
  replace (r + 1 - 2) with (r + -1) by lia.
  replace (c + 1 - 0) with (c + 1) by lia. replace (c + 1 - 1) with (c + 0) by lia.
  replace (c + 1 - 2) with (c + -1) by lia.
  lia.
Qed.

(** One cell of the vectorised step. *)
Lemma gemini_step_entry (h w : Z) (s : Gemini.GameOfLife) (r c : Z) :
  has_shape h w (Gemini.grid s) = true -> 0 <= r < h -> 0 <= c < w ->
  Gemini.entry (Gemini.grid (Gemini.step s)) r c =
  let x := Gemini.entry (Gemini.grid s) r c in
  let n := Gemini.entry (Gemini.convolve2d (Gemini.grid s) Gemini.kernel) r c in
  Z.b2z (((x =? 0) && (n =? 3)) || ((x =? 1) && ((n =? 2) || (n =? 3)))).
Proof.
  intros Hs Hr Hc. cbv zeta. unfold Gemini.step. cbn [Gemini.grid].
  set (g := Gemini.grid s) in *. set (nc := Gemini.convolve2d g Gemini.kernel).
  assert (Hnc : has_shape h w nc = true).
  { unfold nc, Gemini.convolve2d. rewrite (shape_of h w) by (done || lia).
    change (Gemini.shape Gemini.kernel) with (3, 3). cbv beta iota.
    apply tabulate_shape; lia. }
  destruct (getitem_in h w g r c Hs Hr Hc) as (row & x & Hrow & Hx & _).
  destruct (getitem_in h w nc r c Hnc Hr Hc) as (nrow & n & Hnrow & Hn & _).
  unfold Gemini.entry. rewrite !lookup_zip_with, Hrow, Hnrow. simpl.
  by rewrite !lookup_zip_with, Hx, Hn.
Qed.

(** ** The transition rule (C1) *)

(** C1. For every grid, [update_grid] returns, and the grid it installs is
    computed cell by cell from the grid before the step, which it keeps as
    [previous_grid]: a live cell (value 1) is alive afterwards exactly when its
    neighbour count is 2 or 3, any other cell is alive afterwards exactly when
    its count is 3, and every new cell is 0 or 1. The [births] of the step is
    the number of dead cells with count 3 and its [deaths] the number of live
    cells whose count is neither 2 nor 3. The vectorised [step] of the Gemini
    variant computes the same rule from the grid before the step, with its
    convolution as the count. *)
Theorem step_rule (s : GameOfLife) (t : Gemini.GameOfLife) (h w : Z) :
  has_shape GRID_HEIGHT GRID_WIDTH (grid s) = true ->
  has_shape h w (Gemini.grid t) = true ->
  (exists s', update_grid s = Ret s' /\
     previous_grid s' = grid s /\
     has_shape GRID_HEIGHT GRID_WIDTH (grid s') = true /\
     (forall r c, 0 <= r < GRID_HEIGHT -> 0 <= c < GRID_WIDTH ->
        exists x n y,
          getitem (grid s) r c = Ret x /\ get_neighbors (grid s) r c = Ret n /\
          getitem (grid s') r c = Ret y /\ (y = 0 \/ y = 1) /\
          (x = 1 -> (y = 1 <-> n = 2 \/ n = 3)) /\
          (x <> 1 -> (y = 1 <-> n = 3))) /\
     births (stats s') = PyInt (count_cells (is_born (grid s))) /\
     deaths (stats s') = PyInt (count_cells (dies (grid s)))) /\
  (Gemini.prev_grid (Gemini.step t) = Gemini.grid t /\
   forall r c, 0 <= r < h -> 0 <= c < w ->
     let x := Gemini.entry (Gemini.grid t) r c in
     let n := Gemini.entry (Gemini.convolve2d (Gemini.grid t) Gemini.kernel) r c in
     let y := Gemini.entry (Gemini.grid (Gemini.step t)) r c in
     (y = 0 \/ y = 1) /\
     (x = 1 -> (y = 1 <-> n = 2 \/ n = 3)) /\
     (x = 0 -> (y = 1 <-> n = 3)) /\
     (x <> 0 -> x <> 1 -> y = 0)).
Proof.
  intros Hs Ht. split.
  - destruct (next_generation_ok (grid s) Hs) as (new & Hrun & Hnew & Hcells).
    unfold update_grid. cbn [grid set_previous_grid stats]. rewrite Hrun. py_step.
    eexists. split; [reflexivity|]. cbn.
    split; [done|]. split; [done|]. split; [|done].
    intros r c Hr Hc.
    exists (cell (grid s) r c), (neighbors (grid s) r c), (next_state (grid s) r c).
    split; [by apply (getitem_cell GRID_HEIGHT GRID_WIDTH)|].
    split; [by apply get_neighbors_returns|].
    split; [rewrite <- Hcells by done; by apply (getitem_cell GRID_HEIGHT GRID_WIDTH)|].
    split; [apply rule_binary|]. apply rule_spec.
  - split; [done|]. intros r c Hr Hc. cbv zeta.
    rewrite (gemini_step_entry h w) by done. cbv zeta.
    set (x := Gemini.entry (Gemini.grid t) r c).
    set (n := Gemini.entry (Gemini.convolve2d (Gemini.grid t) Gemini.kernel) r c).
    destruct (Z.eqb_spec x 0), (Z.eqb_spec x 1), (Z.eqb_spec n 2), (Z.eqb_spec n 3);
      simpl; repeat split; intros; try done; try lia; auto.
Qed.

(** ** The neighbour count (C2) *)

Lemma toroidal_count_bounds (h w : Z) (a : ndarray) (r c : Z) :
  has_shape h w a = true -> is_binary a = true -> 0 < h -> 0 < w ->
  0 <= toroidal_count h w a r c <= 8.
Proof.
  intros Hs Hb Hh Hw. unfold toroidal_count.
  pose proof (sum_over_bounds moore_offsets
    (fun d => Gemini.entry a ((r + fst d) mod h) ((c + snd d) mod w)) 1) as H.
  change (Z.of_nat (length moore_offsets) * 1) with 8 in H. apply H.
  intros d _.
  pose proof (Z.mod_pos_bound (r + fst d) h Hh).
  pose proof (Z.mod_pos_bound (c + snd d) w Hw).
  rewrite <- (cell_entry h w) by done.
  destruct (binary_cell h w a ((r + fst d) mod h) ((c + snd d) mod w)); done || lia.
Qed.

(** C2. On every grid [get_neighbors] returns, at every cell, a number
    between 0 and 8: the sum of the grid over the eight Moore offsets, those
    that leave the grid skipped. The convolution count of the Gemini variant
    (3x3 kernel with centre 0, wrap boundary) equals, at every cell of every
    matrix, the naive scan of the eight offsets with coordinates taken modulo
    the height and the width, and on a 0/1 matrix it lies between 0 and 8. *)
Theorem neighbor_count_spec (g a : ndarray) (h w : Z) :
  well_formed g = true ->
  has_shape h w a = true ->
  (forall row col,
     exists n, get_neighbors g row col = Ret n /\ 0 <= n <= 8 /\
               n = clamped_count g row col) /\
  (forall r c, 0 <= r < h -> 0 <= c < w ->
     Gemini.entry (Gemini.convolve2d a Gemini.kernel) r c = toroidal_count h w a r c /\
     (is_binary a = true -> 0 <= toroidal_count h w a r c <= 8)).
Proof.
  intros Hg Ha. split.
  - intros row col. destruct (get_neighbors_clamped g row col Hg) as [Heq Hb].
    by exists (clamped_count g row col).
  - intros r c Hr Hc. split; [by apply convolve2d_toroidal|].
    intros Hb. apply toroidal_count_bounds; done || lia.
Qed.

(** ** Statistics (C3) *)

(** C3. After a step of [update_grid] the statistics are: the generation one
    more than before, [births] and [deaths] the counts of this step, the
    totals increased by these counts, [population] the number of live cells
    of the new grid, and [max_population] the larger of its old value and the
    new population. The Gemini variant keeps a generation counter only, which
    its [step] increases by one. *)
Theorem update_grid_statistics (s : GameOfLife) (t : Gemini.GameOfLife) :
  has_shape GRID_HEIGHT GRID_WIDTH (grid s) = true ->
  builtin (generation (stats s)) = true ->
  builtin (total_births (stats s)) = true ->
  builtin (total_deaths (stats s)) = true ->
  (exists s' new_grid b d,
     next_generation (grid s) = Ret (new_grid, b, d) /\
     update_grid s = Ret s' /\ grid s' = new_grid /\
     int_value (generation (stats s')) = int_value (generation (stats s)) + 1 /\
     births (stats s') = PyInt b /\
     deaths (stats s') = PyInt d /\
     int_value (total_births (stats s')) = int_value (total_births (stats s)) + b /\
     int_value (total_deaths (stats s')) = int_value (total_deaths (stats s)) + d /\
     int_value (population (stats s')) = count_cells (alive (grid s')) /\
     int_value (max_population (stats s')) =
       Z.max (int_value (max_population (stats s))) (int_value (population (stats s')))) /\
  Gemini.generation (Gemini.step t) = Gemini.generation t + 1.
Proof.
  intros Hs Hgen Htb Htd. split; [|done].
  destruct (next_generation_ok (grid s) Hs) as (new & Hrun & Hnew & Hcells).
  unfold update_grid. cbn [grid set_previous_grid stats]. rewrite Hrun. py_step.
  eexists _, new, _, _. split; [reflexivity|]. split; [reflexivity|].
  cbn [grid set_stats set_grid stats update_stats generation births deaths
       total_births total_deaths population max_population].
  split; [done|].
  destruct (generation (stats s)) as [gen|]; [|done].
  destruct (total_births (stats s)) as [tb|]; [|done].
  destruct (total_deaths (stats s)) as [td|]; [|done].
  cbn [py_add int_value]. repeat (split; [done|]).
  assert (Hpop : int_value (np_sum new) = count_cells (alive new)).
  { unfold np_sum. cbn [int_value].
    rewrite grid_sum_alive by (done || (intros; rewrite Hcells by done; apply rule_binary)).
    pose proof (count_cells_bounds (alive new)) as Hb.
    change (GRID_HEIGHT * GRID_WIDTH) with 6000 in Hb.
    apply wrap64_small. lia. }
  split; [done|]. unfold py_max.
  destruct (Z.ltb_spec (int_value (max_population (stats s))) (int_value (np_sum new))); lia.
Qed.

Lemma step_rule_witness :
  has_shape GRID_HEIGHT GRID_WIDTH (grid blinker_session) = true /\
  has_shape 3 3 (Gemini.grid small_torus) = true /\
  exists s', update_grid blinker_session = Ret s' /\
             previous_grid s' = grid blinker_session.
Proof.
  split; [reflexivity|]. split; [reflexivity|].
  destruct (step_rule blinker_session small_torus 3 3) as [(s' & H1 & H2 & _) _];
    [reflexivity..|].
  exists s'. split; assumption.
Defined.

Lemma neighbor_count_spec_witness :
  well_formed blinker_grid = true /\
  has_shape 3 3 (Gemini.grid small_torus) = true /\
  exists n, get_neighbors blinker_grid 4 6 = Ret n /\ 0 <= n <= 8.
Proof.
  split; [reflexivity|]. split; [reflexivity|].
  destruct (neighbor_count_spec blinker_grid (Gemini.grid small_torus) 3 3) as [H _];
    [reflexivity..|].
  destruct (H 4 6) as (n & H1 & H2 & _). exists n. split; assumption.
Defined.

Lemma update_grid_statistics_witness :
  has_shape GRID_HEIGHT GRID_WIDTH (grid blinker_session) = true /\
  builtin (generation (stats blinker_session)) = true /\
  builtin (total_births (stats blinker_session)) = true /\
  builtin (total_deaths (stats blinker_session)) = true /\
  exists s', update_grid blinker_session = Ret s' /\
             int_value (generation (stats s')) = 1.
Proof.
  repeat (split; [reflexivity|]).
  destruct (update_grid_statistics blinker_session small_torus)
    as [(s' & g & b & d & _ & H1 & _ & H2 & _) _]; [reflexivity..|].
  exists s'. split; assumption.
Defined.

(** ** The history (C4, C5, C6) *)

Lemma list_getitem_in {A : Type} (l : list A) (i : Z) :
  0 <= i < Z.of_nat (length l) -> exists x, list_getitem l i = Ret x.
Proof.
  intros Hi. unfold list_getitem. rewrite axis_index_in by done. py_step.
  destruct (lookup_lt_is_Some_2 l (Z.to_nat i)) as [x Hx]; [lia|].
  rewrite Hx. by exists x.
Qed.

(** What [save_to_history] keeps of the old sequence. *)
Lemma save_to_history_kept (s : GameOfLife) :
  -1 <= history_index s ->
  (if history_index s <? Z.of_nat (length (history s)) - 1
   then list_slice_to (history s) (history_index s + 1)
   else history s) = take (Z.to_nat (history_index s + 1)) (history s).
Proof.
  intros Hi. destruct (Z.ltb_spec (history_index s) (Z.of_nat (length (history s)) - 1)).
  - unfold list_slice_to. destruct (Z.leb_spec 0 (history_index s + 1)); [done|lia].
  - rewrite take_ge; [done|lia].
Qed.

(** [save_to_history] in terms of the kept entries. *)
Lemma save_to_history_unfold (s : GameOfLife) :
  -1 <= history_index s ->
  let kept := take (Z.to_nat (history_index s + 1)) (history s) in
  save_to_history s =
  if max_history <? Z.of_nat (length kept) + 1
  then set_history (drop 1 (kept ++ [grid s])) (history_index s) s
  else set_history (kept ++ [grid s]) (history_index s + 1) s.
Proof.
  intros Hi kept. unfold save_to_history.
  rewrite save_to_history_kept by done. fold kept.
  rewrite length_app. simpl length.
  by replace (Z.of_nat (length kept + 1)) with (Z.of_nat (length kept) + 1) by lia.
Qed.

(** C5. [save_to_history] keeps the live grid, discards the entries after the
    cursor and appends a copy of the grid. If that makes the sequence longer
    than [max_history], the oldest entry is evicted and the cursor stays,
    and it then sits on the newest of the kept entries; otherwise the cursor
    advances by one. *)
Theorem save_to_history_spec (s : GameOfLife) :
  -1 <= history_index s ->
  let kept := take (Z.to_nat (history_index s + 1)) (history s) in
  let s' := save_to_history s in
  grid s' = grid s /\
  (max_history < Z.of_nat (length kept) + 1 ->
     history s' = drop 1 kept ++ [grid s] /\
     history_index s' = history_index s /\
     (history_index s < Z.of_nat (length (history s)) ->
        Z.of_nat (length kept) = history_index s + 1)) /\
  (Z.of_nat (length kept) + 1 <= max_history ->
     history s' = kept ++ [grid s] /\
     history_index s' = history_index s + 1).
Proof.
  intros Hi kept s'. subst s'.
  pose proof (save_to_history_unfold s Hi) as Heq. cbv zeta in Heq. fold kept in Heq.
  rewrite Heq.
  destruct (Z.ltb_spec max_history (Z.of_nat (length kept) + 1)) as [Hover|Hfits];
    cbn [grid history history_index set_history].
  - split; [done|]. split; [|lia]. intros _.
    split; [|split; [done|]].
    + destruct kept as [|g0 kept']; [unfold max_history in Hover; simpl in Hover; lia|done].
    + intros Hlt. subst kept. rewrite length_take. lia.
  - split; [done|]. split; [lia|]. done.
Qed.

Lemma save_to_history_spec_witness :
  -1 <= history_index blinker_session /\
  history (save_to_history blinker_session) = [blinker_grid] /\
  history_index (save_to_history blinker_session) = 0.
Proof.
  split; [unfold blinker_session; simpl; lia|].
  destruct (save_to_history_spec blinker_session) as (_ & _ & H);
    [unfold blinker_session; simpl; lia|].
  apply H. unfold max_history. simpl. lia.
Defined.

(** The invariant that the history operations preserve. *)
Lemma history_ok_intro (s : GameOfLife) :
  Z.of_nat (length (history s)) <= max_history ->
  history_index s < Z.of_nat (length (history s)) ->
  (history s = [] -> history_index s = -1) ->
  (history s <> [] -> 0 <= history_index s) ->
  history_ok s.
Proof. intros H1 H2 H3 H4. split; [done|]. intros Hne. split; [auto|done]. Qed.

Section history_operations.
Let inv (s : GameOfLife) : Prop :=
  Z.of_nat (length (history s)) <= max_history /\
  history_index s < Z.of_nat (length (history s)) /\
  (history s = [] -> history_index s = -1) /\
  (history s <> [] -> 0 <= history_index s).

Lemma inv_bounds (s : GameOfLife) : inv s -> -1 <= history_index s.
Proof.
  intros (_ & _ & He & Hne). destruct (history s) as [|g l] eqn:E; [rewrite He; done|].
  assert (0 <= history_index s) by (apply Hne; done). lia.
Qed.

Lemma save_to_history_inv (s : GameOfLife) : inv s -> inv (save_to_history s).
Proof.
  intros Hinv. pose proof (inv_bounds s Hinv) as Hi.
  destruct Hinv as (Hcap & Hlt & _ & _).
  pose proof (save_to_history_unfold s Hi) as Heq. cbv zeta in Heq.
  set (kept := take (Z.to_nat (history_index s + 1)) (history s)) in *.
  assert (Hk : Z.of_nat (length kept) = history_index s + 1).
  { subst kept. rewrite length_take. lia. }
  assert (Hmax : 0 < max_history) by done.
  rewrite Heq. unfold inv.
  destruct (Z.ltb_spec max_history (Z.of_nat (length kept) + 1)) as [H|H];
    cbn [history history_index set_history].
  - destruct kept as [|g0 kept']; [simpl in H; lia|].
    cbn [drop app]. rewrite drop_0. simpl length in *. rewrite length_app. simpl length.
    split; [lia|]. split; [lia|]. split; intros Hx; [|lia].
    by apply app_eq_nil in Hx as [_ ?].
  - rewrite length_app. simpl length.
    split; [lia|]. split; [lia|]. split; intros Hx; [|lia].
    by apply app_eq_nil in Hx as [_ ?].
Qed.

Lemma undo_inv (s : GameOfLife) : inv s -> exists s', undo s = Ret s' /\ inv s'.
Proof.
  intros (Hcap & Hlt & He & Hne). unfold undo.
  destruct (Z.ltb_spec 0 (history_index s)); [|by exists s].
  destruct (list_getitem_in (history s) (history_index s - 1)) as [g Hg]; [lia|].
  rewrite Hg. py_step. eexists. split; [reflexivity|].
  unfold inv. cbn [history history_index set_grid set_history].
  split; [lia|]. split; [lia|]. split; intros Hx; [|lia].
  rewrite Hx in Hlt. simpl in Hlt. lia.
Qed.

Lemma redo_inv (s : GameOfLife) : inv s -> exists s', redo s = Ret s' /\ inv s'.
Proof.
  intros Hinv. pose proof (inv_bounds s Hinv) as Hi.
  destruct Hinv as (Hcap & Hlt & He & Hne). unfold redo.
  destruct (Z.ltb_spec (history_index s) (Z.of_nat (length (history s)) - 1));
    [|by exists s].
  destruct (list_getitem_in (history s) (history_index s + 1)) as [g Hg]; [lia|].
  rewrite Hg. py_step. eexists. split; [reflexivity|].
  unfold inv. cbn [history history_index set_grid set_history].
  split; [lia|]. split; [lia|]. split; intros Hx; [|lia].
  rewrite Hx in *. simpl in *. lia.
Qed.

Lemma run_ops_inv (ops : list history_op) (s : GameOfLife) :
  inv s -> exists s', run_ops ops s = Ret s' /\ inv s'.
Proof.
  unfold run_ops. revert s. induction ops as [|op ops IH]; intros s Hinv.
  { by exists s. }
  assert (Hop : exists s1, apply_op s op = Ret s1 /\ inv s1).
  { destruct op as [g| |]; simpl.
    - eexists. split; [reflexivity|]. by apply save_to_history_inv.
    - by apply undo_inv.
    - by apply redo_inv. }
  destruct Hop as (s1 & Hs1 & Hinv1). simpl. rewrite Hs1. py_step. by apply IH.
Qed.

(** C6. Starting from the empty history, after any sequence of record, undo
    and redo operations (hence after each operation of a sequence) the calls
    have all returned, the history holds at most [max_history] = 50 entries,
    and whenever it is not empty the cursor is a valid index into it. *)
Theorem history_invariant (ops : list history_op) (s : GameOfLife) :
  history s = [] -> history_index s = -1 ->
  exists s', run_ops ops s = Ret s' /\
    Z.of_nat (length (history s')) <= 50 /\ history_ok s'.
Proof.
  intros Hh Hi. destruct (run_ops_inv ops s) as (s' & Hrun & H1 & H2 & H3 & H4).
  { unfold inv. rewrite Hh, Hi. simpl. unfold max_history.
    split; [lia|]. split; [lia|]. split; [done|]. intros Hx. by destruct Hx. }
  exists s'. split; [done|]. split; [exact H1|]. by apply history_ok_intro.
Qed.
End history_operations.

Lemma history_invariant_witness :
  history GameOfLife_init = [] /\ history_index GameOfLife_init = -1 /\
  exists s', run_ops [Record blinker_grid; Undo; Record blinker_grid; Redo] GameOfLife_init
             = Ret s' /\ history_ok s'.
Proof.
  split; [reflexivity|]. split; [reflexivity|].
  destruct (history_invariant [Record blinker_grid; Undo; Record blinker_grid; Redo]
              GameOfLife_init) as (s' & H1 & _ & H2); [reflexivity..|].
  exists s'. split; assumption.
Defined.

(** C4, amended. A record of [G1] is [save_to_history] called while the live
    grid is [G1]; the grid is then changed to [G2] and [undo] is called. With
    the cursor at -1, as in the empty history, the record is the first entry
    and the [undo] does nothing: the live grid stays [G2]. With the cursor on
    an entry, the [undo] installs that entry, the one the cursor was on
    before the record, which is [G1] only if that entry is; a [redo] after it
    installs [G1]. *)
Theorem undo_after_record (G1 G2 : ndarray) (s : GameOfLife) :
  -1 <= history_index s < Z.of_nat (length (history s)) ->
  Z.of_nat (length (history s)) <= max_history ->
  let s2 := set_grid G2 (save_to_history (set_grid G1 s)) in
  (history_index s = -1 -> undo s2 = Ret s2 /\ grid s2 = G2) /\
  (0 <= history_index s ->
     exists g s3 s4,
       history s !! Z.to_nat (history_index s) = Some g /\
       undo s2 = Ret s3 /\ grid s3 = g /\
       redo s3 = Ret s4 /\ grid s4 = G1).
Proof.
  intros Hi Hlen s2. subst s2.
  rewrite save_to_history_unfold by (cbn [history_index set_grid]; lia). cbv zeta.
  cbn [history history_index grid set_grid].
  set (kept := take (Z.to_nat (history_index s + 1)) (history s)).
  assert (Hk : Z.of_nat (length kept) = history_index s + 1).
  { subst kept. rewrite length_take. lia. }
  unfold max_history in *. split.
  - intros Hempty. rewrite Hk, Hempty. cbn. done.
  - intros Hpos.
    destruct (lookup_lt_is_Some_2 (history s) (Z.to_nat (history_index s))) as [g Hg]; [lia|].
    assert (Hkg : kept !! Z.to_nat (history_index s) = Some g).
    { subst kept. rewrite lookup_take_lt by lia. exact Hg. }
    exists g.
    destruct (Z.ltb_spec 50 (Z.of_nat (length kept) + 1)) as [Hfull|Hroom].
    + assert (Hl : Z.of_nat (length (drop 1 (kept ++ [G1]))) = history_index s + 1).
      { rewrite length_drop, length_app. simpl length. lia. }
      unfold undo. cbn [history history_index set_history set_grid].
      destruct (Z.ltb_spec 0 (history_index s)); [|lia].
      unfold list_getitem. rewrite axis_index_in by lia. py_step.
      rewrite lookup_drop.
      replace (1 + Z.to_nat (history_index s - 1))%nat with (Z.to_nat (history_index s)) by lia.
      rewrite lookup_app_l by lia. rewrite Hkg.
      eexists _, _. split; [exact Hg|]. split; [reflexivity|]. split; [reflexivity|].
      unfold redo. cbn [history history_index set_history set_grid].
      destruct (Z.ltb_spec (history_index s - 1)
                  (Z.of_nat (length (drop 1 (kept ++ [G1]))) - 1)); [|lia].
      unfold list_getitem. rewrite axis_index_in by lia. py_step.
      rewrite lookup_drop.
      replace (1 + Z.to_nat (history_index s - 1 + 1))%nat with (length kept + 0)%nat by lia.
      rewrite lookup_app_r by lia.
      replace (length kept + 0 - length kept)%nat with 0%nat by lia.
      split; reflexivity.
    + assert (Hl : Z.of_nat (length (kept ++ [G1])) = history_index s + 2).
      { rewrite length_app. simpl length. lia. }
      unfold undo. cbn [history history_index set_history set_grid].
      destruct (Z.ltb_spec 0 (history_index s + 1)); [|lia].
      unfold list_getitem. rewrite axis_index_in by lia. py_step.
      replace (Z.to_nat (history_index s + 1 - 1)) with (Z.to_nat (history_index s)) by lia.
      rewrite lookup_app_l by lia. rewrite Hkg.
      eexists _, _. split; [exact Hg|]. split; [reflexivity|]. split; [reflexivity|].
      unfold redo. cbn [history history_index set_history set_grid].
      destruct (Z.ltb_spec (history_index s + 1 - 1)
                  (Z.of_nat (length (kept ++ [G1])) - 1)); [|lia].
      unfold list_getitem. rewrite axis_index_in by lia. py_step.
      replace (Z.to_nat (history_index s + 1 - 1 + 1)) with (length kept + 0)%nat by lia.
      rewrite lookup_app_r by lia.
      replace (length kept + 0 - length kept)%nat with 0%nat by lia.
      split; reflexivity.
Qed.

Lemma undo_after_record_witness :
  let s := save_to_history GameOfLife_init in
  -1 <= history_index s < Z.of_nat (length (history s)) /\
  Z.of_nat (length (history s)) <= max_history /\
  exists s3, undo (set_grid marked_grid (save_to_history (set_grid (grid s) s))) = Ret s3 /\
             grid s3 = np_zeros GRID_HEIGHT GRID_WIDTH.
Proof.
  cbv zeta. split; [split; [discriminate|reflexivity]|]. split; [discriminate|].
  destruct (undo_after_record (grid (save_to_history GameOfLife_init)) marked_grid
              (save_to_history GameOfLife_init)) as [_ H];
    [split; [discriminate|reflexivity]|discriminate|].
  destruct H as (g & s3 & s4 & Hg & Hundo & Hgrid & _); [discriminate|].
  exists s3. split; [exact Hundo|]. rewrite Hgrid.
  injection Hg as <-. reflexivity.
Defined.

(** C4 as it stands, on a fresh session, whose history is empty. [toggle_cell]
    at the pixel (100, 150) records the empty grid and then sets the cell in
    row 5, column 13; the [undo] after it returns the session unchanged, with
    the cell still set. The same holds when the record and the change of the
    grid are made directly. *)
Lemma undo_after_first_record_restores_nothing :
  history GameOfLife_init = [] /\ history_index GameOfLife_init = -1 /\
  (exists s2,
     toggle_cell 100 150 GameOfLife_init = Ret s2 /\
     history s2 = [grid GameOfLife_init] /\ history_index s2 = 0 /\
     getitem (grid GameOfLife_init) 5 13 = Ret 0 /\ getitem (grid s2) 5 13 = Ret 1 /\
     undo s2 = Ret s2) /\
  (let s2 := set_grid marked_grid (save_to_history (set_grid blinker_grid GameOfLife_init)) in
   history s2 = [blinker_grid] /\ undo s2 = Ret s2 /\
   grid s2 = marked_grid /\ marked_grid <> blinker_grid).
Proof.
  split; [reflexivity|]. split; [reflexivity|]. split.
  - eexists. split; [vm_compute; reflexivity|]. split; [reflexivity|]. split; [reflexivity|].
    split; [reflexivity|]. split; reflexivity.
  - cbv zeta. split; [reflexivity|]. split; [reflexivity|]. split; [reflexivity|].
    intros H. apply (f_equal (fun g => getitem g 0 5)) in H. vm_compute in H. discriminate.
Qed.

(** In the running program [run] records the initial grid [G0] first: after
    two recorded edits, to [A] and then to [B], one [undo] installs [G0] and
    not [A]. *)
Lemma undo_skips_an_edit (G0 A B : ndarray) :
  let s0 := save_to_history (set_grid G0 GameOfLife_init) in
  let s1 := set_grid A (save_to_history s0) in
  let s2 := set_grid B (save_to_history s1) in
  history s2 = [G0; G0; A] /\ history_index s2 = 2 /\
  exists s', undo s2 = Ret s' /\ grid s' = G0 /\ history_index s' = 1.
Proof. cbv zeta. split; [done|]. split; [done|]. eexists. split; [reflexivity|]. done. Qed.

(** ** Pattern placement (C7) *)

(** Case analysis on the integer comparisons of the goal, dropping the cases
    that arithmetic excludes. *)
Ltac zcases :=
  repeat (match goal with
          | |- context [?a <=? ?b] => destruct (Z.leb_spec a b)
          | |- context [?a <? ?b] => destruct (Z.ltb_spec a b)
          | |- context [?a =? ?b] => destruct (Z.eqb_spec a b)
          end; cbn [andb orb negb]; try (exfalso; lia)).

Lemma grid_save_to_history (s : GameOfLife) : grid (save_to_history s) = grid s.
Proof. unfold save_to_history. by destruct (_ <? _). Qed.

Lemma width_nonneg (p : Pattern) : 0 <= width p.
Proof. unfold width. destruct (pattern p); lia. Qed.

Lemma height_nonneg (p : Pattern) : 0 <= height p.
Proof. unfold height. lia. Qed.

Section placement.
Variable p : Pattern.
Hypothesis p_rect : has_shape (height p) (width p) (pattern p) = true.
Variables grid_x grid_y : Z.

(** One pattern cell: written over the grid cell it lands on, dropped when it
    lands outside the grid. *)
Lemma place_cell_ok (g : ndarray) (row col : Z) :
  has_shape GRID_HEIGHT GRID_WIDTH g = true ->
  0 <= row < height p -> 0 <= col < width p ->
  exists g',
    place_cell p grid_x grid_y row g col = Ret g' /\
    has_shape GRID_HEIGHT GRID_WIDTH g' = true /\
    forall r c, 0 <= r < GRID_HEIGHT -> 0 <= c < GRID_WIDTH ->
      cell g' r c =
      if (r =? grid_y + row) && (c =? grid_x + col) then cell (pattern p) row col
      else cell g r c.
Proof.
  intros Hg Hrow Hcol. unfold place_cell.
  destruct (in_grid (grid_y + row) (grid_x + col)) eqn:Hin.
  - apply in_grid_spec in Hin as [? ?].
    rewrite (getitem_cell (height p) (width p)) by done. py_step.
    by apply setitem_in.
  - exists g. split; [done|]. split; [done|]. intros r c Hr Hc.
    destruct (Z.eqb_spec r (grid_y + row)) as [->|]; [|done].
    destruct (Z.eqb_spec c (grid_x + col)) as [->|]; [|done].
    assert (in_grid (grid_y + row) (grid_x + col) = true) by by apply in_grid_spec.
    congruence.
Qed.

(** The two loops of [place_pattern]. *)
Lemma place_loops_ok (g : ndarray) :
  has_shape GRID_HEIGHT GRID_WIDTH g = true ->
  exists g',
    for_each (range (height p)) (fun g row =>
      for_each (range (width p)) (place_cell p grid_x grid_y row) g) g = Ret g' /\
    has_shape GRID_HEIGHT GRID_WIDTH g' = true /\
    forall r c, 0 <= r < GRID_HEIGHT -> 0 <= c < GRID_WIDTH ->
      cell g' r c =
      if under_pattern p grid_x grid_y r c
      then cell (pattern p) (r - grid_y) (c - grid_x)
      else cell g r c.
Proof.
  intros Hg. pose proof (width_nonneg p) as Hw. pose proof (height_nonneg p) as Hh.
  destruct (for_range_inv
    (fun i (g' : ndarray) =>
       has_shape GRID_HEIGHT GRID_WIDTH g' = true /\
       forall r c, 0 <= r < GRID_HEIGHT -> 0 <= c < GRID_WIDTH ->
         cell g' r c =
         if (grid_y <=? r) && (r <? grid_y + i) && (grid_x <=? c) && (c <? grid_x + width p)
         then cell (pattern p) (r - grid_y) (c - grid_x)
         else cell g r c)
    (height p)
    (fun g row => for_each (range (width p)) (place_cell p grid_x grid_y row) g) g)
    as (g' & Hrun & Hs & Hc).
  - done.
  - split; [done|]. intros r c Hr Hc. zcases; done.
  - intros i g1 Hi [Hs1 Hc1].
    destruct (for_range_inv
      (fun j (g' : ndarray) =>
         has_shape GRID_HEIGHT GRID_WIDTH g' = true /\
         forall r c, 0 <= r < GRID_HEIGHT -> 0 <= c < GRID_WIDTH ->
           cell g' r c =
           if ((grid_y <=? r) && (r <? grid_y + i) && (grid_x <=? c) && (c <? grid_x + width p))
              || ((r =? grid_y + i) && (grid_x <=? c) && (c <? grid_x + j))
           then cell (pattern p) (r - grid_y) (c - grid_x)
           else cell g r c)
      (width p) (place_cell p grid_x grid_y i) g1) as (g2 & Hrun2 & Hs2 & Hc2).
    + done.
    + split; [done|]. intros r c Hr Hc. rewrite Hc1 by done. zcases; done.
    + intros j g2 Hj [Hs2 Hc2].
      destruct (place_cell_ok g2 i j) as (g3 & Hp & Hs3 & Hc3); [done..|].
      exists g3. split; [done|]. split; [done|].
      intros r c Hr Hc. rewrite Hc3, Hc2 by done.
      zcases; try done; subst; f_equal; lia.
    + exists g2. split; [done|]. split; [done|].
      intros r c Hr Hc. rewrite Hc2 by done. zcases; done.
  - exists g'. split; [done|]. split; [done|].
    intros r c Hr Hc'. rewrite Hc by done. unfold under_pattern. done.
Qed.
End placement.

(** *** The Gemini variant's placement *)







(** On the torus with every cell alive, the glider placed at the centre
    clears the five cells under its dead cells. *)
Lemma gemini_place_pattern_clears_cells :
  exists s', Gemini.place_pattern (1, 1) full_torus = Ret s' /\
             Gemini.grid full_torus = [[1; 1; 1]; [1; 1; 1]; [1; 1; 1]] /\
             Gemini.grid s' = [[0; 1; 0]; [0; 0; 1]; [1; 1; 1]].
Proof. eexists. split; [reflexivity|]. split; reflexivity. Qed.

(** [place_pattern] at work on the claim's reading: the grid cell (0, 5) is
    alive and lies under the dead top-left cell of the glider anchored at
    row 0, column 5 (pixel (0, 90)); after the placement it is dead. *)
Lemma place_pattern_clears_cell :
  let s := set_grid marked_grid GameOfLife_init in
  (0 - grid_offset_x s) / CELL_SIZE = 5 /\ (90 - grid_offset_y s) / CELL_SIZE = 0 /\
  getitem (grid s) 0 5 = Ret 1 /\
  getitem (pattern pattern_Glider) 0 0 = Ret 0 /\
  exists s', place_pattern pattern_Glider 0 90 s = Ret s' /\
             getitem (grid s') 0 5 = Ret 0 /\
             getitem (grid s') 0 5 <> getitem (grid s) 0 5.
Proof.
  cbv zeta. repeat (split; [reflexivity|]).
  eexists. split; [vm_compute; reflexivity|]. split; [reflexivity|]. discriminate.
Qed.

(** C7, amended. [place_pattern] does nothing unless the anchor cell, the
    cell under the pixel [(x, y)], lies in the grid. When it does, the call
    returns and every cell of the pattern that lands inside the grid is
    written over the grid cell under it, alive or dead; every grid cell
    outside the footprint of the pattern keeps its value. *)
Theorem place_pattern_overwrites (p : Pattern) (x y : Z) (s : GameOfLife) :
  has_shape GRID_HEIGHT GRID_WIDTH (grid s) = true ->
  has_shape (height p) (width p) (pattern p) = true ->
  let grid_x := (x - grid_offset_x s) / CELL_SIZE in
  let grid_y := (y - grid_offset_y s) / CELL_SIZE in
  exists s', place_pattern p x y s = Ret s' /\
    (in_grid grid_y grid_x = false -> s' = s) /\
    (in_grid grid_y grid_x = true ->
       has_shape GRID_HEIGHT GRID_WIDTH (grid s') = true /\
       forall r c, 0 <= r < GRID_HEIGHT -> 0 <= c < GRID_WIDTH ->
         getitem (grid s') r c =
         if under_pattern p grid_x grid_y r c
         then getitem (pattern p) (r - grid_y) (c - grid_x)
         else getitem (grid s) r c).
Proof.
  intros Hs Hp grid_x grid_y. unfold place_pattern. fold grid_x grid_y.
  assert (Hcond : (0 <=? grid_x) && (grid_x <? GRID_WIDTH) && (0 <=? grid_y)
                  && (grid_y <? GRID_HEIGHT) = in_grid grid_y grid_x).
  { unfold in_grid. by destruct (0 <=? grid_x), (grid_x <? GRID_WIDTH), (0 <=? grid_y),
      (grid_y <? GRID_HEIGHT). }
  rewrite Hcond. destruct (in_grid grid_y grid_x) eqn:Hin.
  - destruct (place_loops_ok p Hp grid_x grid_y (grid (save_to_history s)))
      as (g' & Hrun & Hs' & Hc'); [by rewrite grid_save_to_history|].
    rewrite Hrun. py_step. eexists. split; [reflexivity|]. split; [done|]. intros _.
    cbn [grid set_grid]. split; [done|]. intros r c Hr Hc.
    rewrite (getitem_cell GRID_HEIGHT GRID_WIDTH) by done. rewrite Hc' by done.
    rewrite grid_save_to_history. unfold under_pattern.
    destruct ((grid_y <=? r) && (r <? grid_y + height p) && (grid_x <=? c)
              && (c <? grid_x + width p)) eqn:Hu.
    + rewrite !andb_true_iff, !Z.leb_le, !Z.ltb_lt in Hu.
      symmetry. apply (getitem_cell (height p) (width p)); [done|lia|lia].
    + symmetry. by apply (getitem_cell GRID_HEIGHT GRID_WIDTH).
  - exists s. split; [done|]. split; [done|]. done.
Qed.

Lemma place_pattern_overwrites_witness :
  has_shape GRID_HEIGHT GRID_WIDTH (grid blinker_session) = true /\
  has_shape (height pattern_Glider) (width pattern_Glider) (pattern pattern_Glider) = true /\
  exists s', place_pattern pattern_Glider 0 90 blinker_session = Ret s'.
Proof.
  split; [reflexivity|]. split; [reflexivity|].
  destruct (place_pattern_overwrites pattern_Glider 0 90 blinker_session) as (s' & H & _);
    [reflexivity..|].
  by exists s'.
Defined.

(** ** Well-formed grids (C10) *)

Lemma well_formed_intro (g : ndarray) :
  has_shape GRID_HEIGHT GRID_WIDTH g = true ->
  (forall r c, 0 <= r < GRID_HEIGHT -> 0 <= c < GRID_WIDTH -> cell g r c = 0 \/ cell g r c = 1) ->
  well_formed g = true.
Proof.
  intros Hs Hb. unfold well_formed. rewrite Hs. simpl.
  by apply (cells_binary GRID_HEIGHT GRID_WIDTH).
Qed.

Lemma well_formed_cell (g : ndarray) (r c : Z) :
  well_formed g = true -> 0 <= r < GRID_HEIGHT -> 0 <= c < GRID_WIDTH ->
  cell g r c = 0 \/ cell g r c = 1.
Proof.
  intros [Hs Hb]%andb_true_iff Hr Hc. by apply (binary_cell GRID_HEIGHT GRID_WIDTH).
Qed.

Lemma update_grid_well_formed (s : GameOfLife) :
  has_shape GRID_HEIGHT GRID_WIDTH (grid s) = true ->
  exists s', update_grid s = Ret s' /\ well_formed (grid s') = true.
Proof.
  intros Hs. destruct (next_generation_ok (grid s) Hs) as (new & Hrun & Hnew & Hcells).
  unfold update_grid. cbn [grid set_previous_grid stats]. rewrite Hrun. py_step.
  eexists. split; [reflexivity|]. cbn [grid set_stats set_grid].
  apply well_formed_intro; [done|]. intros r c Hr Hc. rewrite Hcells by done.
  apply rule_binary.
Qed.

Lemma toggle_cell_well_formed (x y : Z) (s : GameOfLife) :
  well_formed (grid s) = true ->
  exists s', toggle_cell x y s = Ret s' /\ well_formed (grid s') = true.
Proof.
  intros Hwf. unfold toggle_cell.
  set (grid_x := (x - grid_offset_x s) / CELL_SIZE).
  set (grid_y := (y - grid_offset_y s) / CELL_SIZE).
  destruct ((0 <=? grid_x) && (grid_x <? GRID_WIDTH) && (0 <=? grid_y)
            && (grid_y <? GRID_HEIGHT)) eqn:Hin; [|by exists s].
  rewrite !andb_true_iff, !Z.leb_le, !Z.ltb_lt in Hin.
  set (s1 := if negb (is_drawing s) then set_is_drawing true (save_to_history s) else s).
  assert (Hg1 : grid s1 = grid s).
  { subst s1. destruct (is_drawing s); simpl; [done|]. apply grid_save_to_history. }
  destruct (setitem_in GRID_HEIGHT GRID_WIDTH (grid s1) grid_y grid_x
              (if draw_mode s1 then 1 else 0)) as (g' & Hset & Hs' & Hc');
    [rewrite Hg1; by apply well_formed_shape|lia|lia|].
  rewrite Hset. py_step. eexists. split; [reflexivity|]. cbn [grid set_grid].
  apply well_formed_intro; [done|]. intros r c Hr Hc. rewrite Hc' by done.
  destruct ((r =? grid_y) && (c =? grid_x)).
  - destruct (draw_mode s1); auto.
  - rewrite Hg1. by apply well_formed_cell.
Qed.

Lemma place_pattern_well_formed (p : Pattern) (x y : Z) (s : GameOfLife) :
  well_formed (grid s) = true ->
  has_shape (height p) (width p) (pattern p) = true ->
  is_binary (pattern p) = true ->
  exists s', place_pattern p x y s = Ret s' /\ well_formed (grid s') = true.
Proof.
  intros Hwf Hrect Hbin. unfold place_pattern.
  set (grid_x := (x - grid_offset_x s) / CELL_SIZE).
  set (grid_y := (y - grid_offset_y s) / CELL_SIZE).
  destruct ((0 <=? grid_x) && (grid_x <? GRID_WIDTH) && (0 <=? grid_y)
            && (grid_y <? GRID_HEIGHT)); [|by exists s].
  destruct (place_loops_ok p Hrect grid_x grid_y (grid (save_to_history s)))
    as (g' & Hrun & Hs' & Hc'); [rewrite grid_save_to_history; by apply well_formed_shape|].
  rewrite Hrun. py_step. eexists. split; [reflexivity|]. cbn [grid set_grid].
  apply well_formed_intro; [done|]. intros r c Hr Hc. rewrite Hc' by done.
  destruct (under_pattern p grid_x grid_y r c) eqn:Hu.
  - unfold under_pattern in Hu. rewrite !andb_true_iff, !Z.leb_le, !Z.ltb_lt in Hu.
    apply (binary_cell (height p) (width p)); done || lia.
  - rewrite grid_save_to_history. by apply well_formed_cell.
Qed.

Lemma np_random_choice_well_formed (draw : Z -> Z -> bool) :
  well_formed (np_random_choice draw GRID_HEIGHT GRID_WIDTH) = true.
Proof.
  unfold np_random_choice.
  pose proof (tabulate_shape GRID_HEIGHT GRID_WIDTH
                (fun r c => if draw r c then 1 else 0)) as Hs.
  apply well_formed_intro; [by apply Hs|]. intros r c Hr Hc.
  rewrite (cell_entry GRID_HEIGHT GRID_WIDTH) by (done || by apply Hs).
  rewrite (tabulate_entry GRID_HEIGHT GRID_WIDTH (fun r c => if draw r c then 1 else 0))
    by done.
  destruct (draw r c); auto.
Qed.

(** Every pattern of the library is a rectangular 0/1 mask. *)
Lemma PATTERNS_binary :
  forallb (fun e => has_shape (height (snd e)) (width (snd e)) (pattern (snd e))
                    && is_binary (pattern (snd e))) PATTERNS = true.
Proof. reflexivity. Qed.

(** C10. On a well-formed grid (60 rows of 100 cells, each 0 or 1) every
    grid operation returns and leaves a well-formed grid: the step, drawing
    or erasing a cell, placing a rectangular 0/1 pattern, clearing and the
    random fill. *)
Theorem operations_keep_grid_well_formed
    (s : GameOfLife) (p : Pattern) (x y : Z) (draw : Z -> Z -> bool) :
  well_formed (grid s) = true ->
  has_shape (height p) (width p) (pattern p) = true ->
  is_binary (pattern p) = true ->
  (exists s', update_grid s = Ret s' /\ well_formed (grid s') = true) /\
  (exists s', toggle_cell x y s = Ret s' /\ well_formed (grid s') = true) /\
  (exists s', place_pattern p x y s = Ret s' /\ well_formed (grid s') = true) /\
  well_formed (grid (clear_grid s)) = true /\
  well_formed (grid (fill_random draw s)) = true.
Proof.
  intros Hwf Hrect Hbin.
  split; [by apply update_grid_well_formed, well_formed_shape|].
  split; [by apply toggle_cell_well_formed|].
  split; [by apply place_pattern_well_formed|].
  split; [reflexivity|].
  apply np_random_choice_well_formed.
Qed.

Lemma operations_keep_grid_well_formed_witness :
  well_formed (grid blinker_session) = true /\
  has_shape (height pattern_Glider) (width pattern_Glider) (pattern pattern_Glider) = true /\
  is_binary (pattern pattern_Glider) = true /\
  exists s', toggle_cell 100 150 blinker_session = Ret s' /\ well_formed (grid s') = true.
Proof.
  repeat (split; [reflexivity|]).
  destruct (operations_keep_grid_well_formed blinker_session pattern_Glider 100 150
              (fun _ _ => true)) as (_ & H & _); [reflexivity..|].
  exact H.
Defined.

(** ** Persistence (C8, C9) *)

Lemma int_row_tolist (row : list Z) :
  Forall (fun v => v = 0 \/ v = 1) row -> int_row (JArray (JInt <$> row)) = Some row.
Proof.
  intros Hrow. unfold int_row. induction Hrow as [|v row Hv _ IH]; [done|].
  cbn [fmap list_fmap mapM]. rewrite IH.
  assert (int64_range v = true) as -> by (by destruct Hv as [->| ->]). done.
Qed.

Lemma mapM_int_row_tolist (a : ndarray) :
  Forall (Forall (fun v => v = 0 \/ v = 1)) a ->
  mapM int_row ((fun row => JArray (JInt <$> row)) <$> a) = Some a.
Proof.
  intros Ha. induction Ha as [|row a Hrow _ IH]; [done|].
  cbn [fmap list_fmap mapM]. rewrite int_row_tolist by done.
  change (list_fmap _ _ ?f a) with (f <$> a). by rewrite IH.
Qed.

(** [np.array(g.tolist())] is [g] for a well-formed grid. *)
Lemma int_matrix_tolist (g : ndarray) :
  well_formed g = true -> int_matrix (tolist g) = Some g.
Proof.
  intros [Hs Hb]%andb_true_iff. unfold int_matrix, tolist.
  rewrite mapM_int_row_tolist by by apply is_binary_spec. cbn [mbind option_bind].
  pose proof (has_shape_length _ _ _ Hs) as Hlen.
  destruct g as [|row g]; [done|].
  pose proof (has_shape_row _ _ (row :: g) 0 row Hs eq_refl) as Hw.
  assert ((0 <? length row)%nat = true) as ->.
  { apply Nat.ltb_lt. pose proof GRID_WIDTH_pos. lia. }
  assert (forallb (fun r => (length r =? length row)%nat) (row :: g) = true) as ->; [|done].
  apply forallb_forall. intros r Hr. apply Nat.eqb_eq.
  apply list_elem_of_In, list_elem_of_lookup in Hr as [i Hi].
  pose proof (has_shape_row _ _ _ _ _ Hs Hi). lia.
Qed.

(** After any step the population is a numpy scalar, and [save_pattern] fails
    on it: [json.dump] raises [TypeError] and leaves a truncated file. *)
Lemma save_pattern_after_step (s : GameOfLife) :
  has_shape GRID_HEIGHT GRID_WIDTH (grid s) = true ->
  builtin (generation (stats s)) = true ->
  exists s', update_grid s = Ret s' /\ save_pattern s' = (Unparsable, Some TypeError).
Proof.
  intros Hs Hgen. destruct (next_generation_ok (grid s) Hs) as (new & Hrun & _).
  unfold update_grid. cbn [grid set_previous_grid stats]. rewrite Hrun. py_step.
  eexists. split; [reflexivity|]. unfold save_pattern, encode.
  cbn [stats set_stats update_stats generation population].
  destruct (generation (stats s)); [|done]. done.
Qed.

(** The round trip is lost in two ways. The per-step counters are not part of
    the file: a session with three births, saved and loaded into a fresh
    session, comes back with none. And after a step the population is a numpy
    scalar, which [json.dump] rejects: the save leaves an unparsable file, and
    loading it restores nothing. *)
Lemma round_trip_loses_statistics :
  (exists doc s',
     save_pattern counted_session = (Document doc, None) /\
     load_pattern (Some (Document doc)) GameOfLife_init = Finished s' None /\
     births (stats counted_session) = PyInt 3 /\
     births (stats s') = PyInt 0) /\
  (exists s1,
     update_grid blinker_session = Ret s1 /\
     save_pattern s1 = (Unparsable, Some TypeError) /\
     load_pattern (Some Unparsable) GameOfLife_init =
       Finished GameOfLife_init (Some JSONDecodeError)).
Proof.
  split.
  - eexists _, _. split; [vm_compute; reflexivity|].
    split; [vm_compute; reflexivity|]. split; reflexivity.
  - destruct (save_pattern_after_step blinker_session) as (s1 & H1 & H2); [reflexivity..|].
    exists s1. split; [exact H1|]. split; [exact H2|]. reflexivity.
Qed.

(** Loading a document of the shape that [save_pattern] writes. *)
Lemma load_saved_document (g : ndarray) (ge po mp tb td : Z) (s0 : GameOfLife) :
  int_matrix (tolist g) = Some g ->
  load_pattern
    (Some (Document (JObject [
       ("grid"%string, tolist g);
       ("stats"%string, JObject [
          ("generation"%string, JInt ge);
          ("population"%string, JInt po);
          ("max_population"%string, JInt mp);
          ("total_births"%string, JInt tb);
          ("total_deaths"%string, JInt td)])]))) s0 =
  Finished
    (set_stats
       {| generation := PyInt ge; population := PyInt po;
          births := births (stats s0); deaths := deaths (stats s0);
          max_population := PyInt mp; total_births := PyInt tb;
          total_deaths := PyInt td |}
       (set_grid g (save_to_history s0))) None.
Proof.
  intros Hg. unfold load_pattern.
  change (dict_get "grid" _) with (Some (tolist g)). cbv beta iota.
  rewrite Hg.
  assert (Hst : stats (save_to_history s0) = stats s0).
  { unfold save_to_history. by destruct (_ <? _), (_ <? _). }
  cbn. by rewrite Hst.
Qed.

(** C8, amended. For a well-formed grid and statistics whose stored fields are
    built-in integers, [save_pattern] writes the document with the cell matrix
    as nested arrays under "grid" and the five numbers under "stats", and
    [load_pattern] of that file into any session reports no error and installs
    the identical grid and identical generation, population, max_population,
    total_births and total_deaths. The per-step births and deaths are not in
    the file and keep the values of the loading session. *)
Theorem save_load_round_trip (s s0 : GameOfLife) :
  well_formed (grid s) = true ->
  builtin (generation (stats s)) = true ->
  builtin (population (stats s)) = true ->
  builtin (max_population (stats s)) = true ->
  builtin (total_births (stats s)) = true ->
  builtin (total_deaths (stats s)) = true ->
  exists s',
    save_pattern s =
      (Document (JObject [
         ("grid"%string, tolist (grid s));
         ("stats"%string, JObject [
            ("generation"%string, JInt (int_value (generation (stats s))));
            ("population"%string, JInt (int_value (population (stats s))));
            ("max_population"%string, JInt (int_value (max_population (stats s))));
            ("total_births"%string, JInt (int_value (total_births (stats s))));
            ("total_deaths"%string, JInt (int_value (total_deaths (stats s))))])]),
       None) /\
    load_pattern (Some (fst (save_pattern s))) s0 = Finished s' None /\
    grid s' = grid s /\
    generation (stats s') = generation (stats s) /\
    population (stats s') = population (stats s) /\
    max_population (stats s') = max_population (stats s) /\
    total_births (stats s') = total_births (stats s) /\
    total_deaths (stats s') = total_deaths (stats s) /\
    births (stats s') = births (stats s0) /\
    deaths (stats s') = deaths (stats s0).
Proof.
  intros Hwf Hge Hpo Hmp Htb Htd.
  pose proof (int_matrix_tolist (grid s) Hwf) as Hg.
  unfold save_pattern, encode.
  destruct (generation (stats s)) as [ge|]; [|done].
  destruct (population (stats s)) as [po|]; [|done].
  destruct (max_population (stats s)) as [mp|]; [|done].
  destruct (total_births (stats s)) as [tb|]; [|done].
  destruct (total_deaths (stats s)) as [td|]; [|done].
  py_step. cbn [json_of_int int_value fst]. py_step.
  eexists. split; [reflexivity|].
  split; [by apply load_saved_document|].
  cbn [grid stats set_grid set_stats generation population max_population total_births
       total_deaths births deaths].
  repeat (split; [reflexivity|]). reflexivity.
Qed.

Lemma save_load_round_trip_witness :
  well_formed (grid counted_session) = true /\
  builtin (generation (stats counted_session)) = true /\
  builtin (population (stats counted_session)) = true /\
  builtin (max_population (stats counted_session)) = true /\
  builtin (total_births (stats counted_session)) = true /\
  builtin (total_deaths (stats counted_session)) = true /\
  exists s', load_pattern (Some (fst (save_pattern counted_session))) GameOfLife_init
             = Finished s' None /\
             grid s' = grid counted_session.
Proof.
  repeat (split; [reflexivity|]).
  destruct (save_load_round_trip counted_session GameOfLife_init)
    as (s' & _ & H1 & H2 & _); [reflexivity..|].
  exists s'. split; assumption.
Defined.

(** A parsed file with a well-formed grid and a "stats" entry that is not an
    object: [load_pattern] reports the [AttributeError], but only after it
    has replaced the live grid. *)
Lemma load_pattern_replaces_grid_before_failing :
  exists s',
    load_pattern (Some stats_not_an_object) blinker_session =
      Finished s' (Some AttributeError) /\
    grid s' = [[1]] /\
    grid s' <> grid blinker_session.
Proof. eexists. split; [reflexivity|]. split; [reflexivity|]. discriminate. Qed.

(** C9, amended. When the save file cannot be opened or [json.load] rejects
    its text, [load_pattern] reports the error and the session is unchanged.
    When the text parses to a document without a "grid" entry, the error is
    reported with the grid and the statistics unchanged; the history has
    recorded one snapshot by then. *)
Theorem load_pattern_failure (s : GameOfLife) (data : json) :
  has_grid_entry data = false ->
  load_pattern None s = Finished s (Some FileNotFoundError) /\
  load_pattern (Some Unparsable) s = Finished s (Some JSONDecodeError) /\
  exists e,
    load_pattern (Some (Document data)) s = Finished (save_to_history s) (Some e) /\
    grid (save_to_history s) = grid s /\
    stats (save_to_history s) = stats s.
Proof.
  intros Hdata. split; [done|]. split; [done|].
  assert (Hkeep : grid (save_to_history s) = grid s /\ stats (save_to_history s) = stats s).
  { split; [apply grid_save_to_history|]. unfold save_to_history. by destruct (_ <? _), (_ <? _). }
  unfold load_pattern.
  destruct data as [| | | | |items|members]; try (by eexists).
  simpl in Hdata. destruct (dict_get "grid" members) eqn:Hget.
  - rewrite bool_decide_eq_false in Hdata. destruct Hdata. by eexists.
  - by eexists.
Qed.

Lemma load_pattern_failure_witness :
  has_grid_entry (JArray [JInt 1; JInt 2]) = false /\
  exists e, load_pattern (Some (Document (JArray [JInt 1; JInt 2]))) blinker_session
            = Finished (save_to_history blinker_session) (Some e).
Proof.
  split; [reflexivity|].
  destruct (load_pattern_failure blinker_session (JArray [JInt 1; JInt 2]))
    as (_ & _ & e & H & _); [reflexivity|].
  by exists e.
Defined.

(** * Further properties of the code *)

(** ** Matrices *)

(** Two matrices of one shape with the same entries are equal. *)
Lemma matrix_ext (h w : Z) (a b : ndarray) :
  has_shape h w a = true -> has_shape h w b = true ->
  (forall r c, 0 <= r < h -> 0 <= c < w -> cell a r c = cell b r c) ->
  a = b.
Proof.
  intros Ha Hb Heq. pose proof (has_shape_length _ _ _ Ha) as Hla.
  pose proof (has_shape_length _ _ _ Hb) as Hlb.
  apply list_eq. intros i. destruct (decide (i < length a)%nat) as [Hi|Hi].
  - destruct (lookup_lt_is_Some_2 a i Hi) as [ra Hra].
    destruct (lookup_lt_is_Some_2 b i) as [rb Hrb]; [lia|].
    rewrite Hra, Hrb. f_equal.
    pose proof (has_shape_row _ _ _ _ _ Ha Hra) as Hwa.
    pose proof (has_shape_row _ _ _ _ _ Hb Hrb) as Hwb.
    apply list_eq. intros j. destruct (decide (j < length ra)%nat) as [Hj|Hj].
    + destruct (getitem_in h w a (Z.of_nat i) (Z.of_nat j) Ha) as (ra' & va & Hra' & Hva & Hga);
        [lia..|].
      destruct (getitem_in h w b (Z.of_nat i) (Z.of_nat j) Hb) as (rb' & vb & Hrb' & Hvb & Hgb);
        [lia..|].
      rewrite Nat2Z.id in *. assert (ra' = ra) as -> by congruence.
      assert (rb' = rb) as -> by congruence. rewrite Hva, Hvb. f_equal.
      specialize (Heq (Z.of_nat i) (Z.of_nat j)). unfold cell in Heq.
      rewrite Hga, Hgb in Heq. apply Heq; lia.
    + rewrite !lookup_ge_None_2 by lia. done.
  - rewrite !lookup_ge_None_2 by lia. done.
Qed.

Lemma sum_over_zero {A : Type} (xs : list A) (f : A -> Z) :
  (forall x, x ∈ xs -> f x = 0) -> sum_over xs f = 0.
Proof.
  unfold sum_over. induction xs as [|x xs IH]; intros H; simpl; [done|].
  rewrite H by left. rewrite IH; [done|]. intros y Hy. apply H. by right.
Qed.

Lemma sum_over_balance {A : Type} (xs : list A) (f g b d : A -> Z) :
  (forall x, x ∈ xs -> f x = g x + b x - d x) ->
  sum_over xs f = sum_over xs g + sum_over xs b - sum_over xs d.
Proof.
  unfold sum_over. induction xs as [|x xs IH]; intros H; simpl; [done|].
  rewrite H by left. rewrite IH; [lia|]. intros y Hy. apply H. by right.
Qed.

Lemma count_cells_zero (p : Z -> Z -> bool) :
  (forall r c, 0 <= r < GRID_HEIGHT -> 0 <= c < GRID_WIDTH -> p r c = false) ->
  count_cells p = 0.
Proof.
  intros Hp. unfold count_cells. apply sum_over_zero. intros r Hr.
  apply elem_of_seqZ in Hr. apply sum_over_zero. intros c Hc. apply elem_of_seqZ in Hc.
  rewrite Hp by lia. done.
Qed.

Lemma count_cells_balance (p q b d : Z -> Z -> bool) :
  (forall r c, 0 <= r < GRID_HEIGHT -> 0 <= c < GRID_WIDTH ->
     Z.b2z (p r c) = Z.b2z (q r c) + Z.b2z (b r c) - Z.b2z (d r c)) ->
  count_cells p = count_cells q + count_cells b - count_cells d.
Proof.
  intros Hp. unfold count_cells. apply sum_over_balance. intros r Hr.
  apply elem_of_seqZ in Hr. apply sum_over_balance. intros c Hc. apply elem_of_seqZ in Hc.
  apply Hp; lia.
Qed.

(** ** More on the transition *)

(** A step of a grid without live cells: nothing is born, nothing dies, and
    the new grid has no live cells. *)
Lemma next_generation_of_empty (g : ndarray) :
  has_shape GRID_HEIGHT GRID_WIDTH g = true ->
  (forall r c, 0 <= r < GRID_HEIGHT -> 0 <= c < GRID_WIDTH -> cell g r c = 0) ->
  exists new,
    next_generation g = Ret (new, 0, 0) /\
    has_shape GRID_HEIGHT GRID_WIDTH new = true /\
    forall r c, 0 <= r < GRID_HEIGHT -> 0 <= c < GRID_WIDTH -> cell new r c = 0.
Proof.
  intros Hs Hzero.
  assert (Hwf : well_formed g = true).
  { apply well_formed_intro; [exact Hs|]. intros r c Hr Hc. left. by apply Hzero. }
  assert (Hn : forall r c, neighbors g r c = 0).
  { intros r c. destruct (get_neighbors_clamped g r c Hwf) as [Heq _].
    unfold neighbors. rewrite Heq. unfold clamped_count. apply sum_over_zero.
    intros d _. destruct (in_grid (r + fst d) (c + snd d)) eqn:Hin; [|reflexivity].
    apply in_grid_spec in Hin as [? ?]. by apply Hzero. }
  destruct (next_generation_ok g Hs) as (new & Hrun & Hnew & Hcells).
  assert (Hb0 : count_cells (is_born g) = 0).
  { apply count_cells_zero. intros r c Hr Hc. unfold is_born.
    rewrite Hn. apply andb_false_r. }
  assert (Hd0 : count_cells (dies g) = 0).
  { apply count_cells_zero. intros r c Hr Hc. unfold dies, alive.
    rewrite Hzero by assumption. reflexivity. }
  rewrite Hb0, Hd0 in Hrun. exists new. split; [exact Hrun|]. split; [exact Hnew|].
  intros r c Hr Hc. rewrite Hcells by assumption. unfold next_state.
  rewrite Hn, Hzero by assumption. reflexivity.
Qed.

(** After [clear_grid] a step returns with the grid still empty: nothing is
    born, nothing dies, the population is 0 and the generation is 1. *)
Theorem step_after_clear_is_quiescent (s : GameOfLife) :
  exists s', update_grid (clear_grid s) = Ret s' /\
    grid s' = np_zeros GRID_HEIGHT GRID_WIDTH /\
    births (stats s') = PyInt 0 /\ deaths (stats s') = PyInt 0 /\
    int_value (population (stats s')) = 0 /\
    generation (stats s') = PyInt 1.
Proof.
  pose proof GRID_HEIGHT_pos as HH. pose proof GRID_WIDTH_pos as HW.
  pose proof (np_zeros_shape GRID_HEIGHT GRID_WIDTH (Z.lt_le_incl _ _ HH)
                (Z.lt_le_incl _ _ HW)) as Hz.
  destruct (next_generation_of_empty _ Hz) as (new & Hrun & Hnew & Hcells).
  { intros r c Hr Hc. by apply np_zeros_cell. }
  assert (Hsum : grid_sum new = 0).
  { rewrite grid_sum_alive; [|exact Hnew|intros r c Hr Hc; left; by apply Hcells].
    apply count_cells_zero. intros r c Hr Hc. unfold alive.
    rewrite Hcells by assumption. reflexivity. }
  assert (Heq : new = np_zeros GRID_HEIGHT GRID_WIDTH).
  { apply (matrix_ext GRID_HEIGHT GRID_WIDTH); [exact Hnew|exact Hz|].
    intros r c Hr Hc. rewrite Hcells by assumption. symmetry. by apply np_zeros_cell. }
  unfold update_grid, clear_grid. cbn [grid set_previous_grid set_grid set_stats stats].
  rewrite Hrun. py_step. eexists. split; [reflexivity|].
  cbn [grid set_grid set_stats stats update_stats births deaths population generation
       Statistics_new py_add].
  split; [exact Heq|]. split; [reflexivity|]. split; [reflexivity|].
  split; [|reflexivity]. unfold np_sum. cbn [int_value]. rewrite Hsum. reflexivity.
Qed.

(** On a well-formed grid the live cells after a step are the live cells
    before it, plus the births, minus the deaths, and that is the population
    the statistics show. *)
Theorem population_balance (s : GameOfLife) :
  well_formed (grid s) = true ->
  exists s', update_grid s = Ret s' /\
    count_cells (alive (grid s')) =
      count_cells (alive (grid s)) + int_value (births (stats s'))
      - int_value (deaths (stats s')) /\
    int_value (population (stats s')) = count_cells (alive (grid s')).
Proof.
  intros Hwf. pose proof (well_formed_shape _ Hwf) as Hs.
  destruct (next_generation_ok (grid s) Hs) as (new & Hrun & Hnew & Hcells).
  unfold update_grid. cbn [grid set_previous_grid stats]. rewrite Hrun. py_step.
  eexists. split; [reflexivity|].
  cbn [grid set_grid set_stats stats update_stats births deaths population int_value].
  split.
  - apply count_cells_balance. intros r c Hr Hc.
    unfold alive at 1. rewrite Hcells by done.
    unfold next_state, rule, is_born, dies, alive.
    destruct (well_formed_cell (grid s) r c Hwf Hr Hc) as [-> | ->];
      destruct (Z.eqb_spec (neighbors (grid s) r c) 2), (Z.eqb_spec (neighbors (grid s) r c) 3);
      simpl; done || lia.
  - unfold np_sum. cbn [int_value].
    rewrite grid_sum_alive by (done || (intros; rewrite Hcells by done; apply rule_binary)).
    pose proof (count_cells_bounds (alive new)) as Hb.
    change (GRID_HEIGHT * GRID_WIDTH) with 6000 in Hb.
    apply wrap64_small. lia.
Qed.

Lemma population_balance_witness :
  well_formed (grid blinker_session) = true /\
  exists s', update_grid blinker_session = Ret s' /\
    int_value (population (stats s')) = count_cells (alive (grid s')).
Proof.
  split; [reflexivity|].
  destruct (population_balance blinker_session) as (s' & H1 & _ & H2); [reflexivity|].
  exists s'. split; assumption.
Defined.

(** ** More on the history *)

(** After an [undo], a [redo] puts the cursor back and leaves the history and
    the statistics as they were; the grid it installs is the snapshot stored
    at the cursor, the grid recorded before the last edit. *)
Theorem undo_then_redo (s : GameOfLife) :
  0 < history_index s < Z.of_nat (length (history s)) ->
  exists s1 s2 g,
    undo s = Ret s1 /\ redo s1 = Ret s2 /\
    history s2 = history s /\ history_index s2 = history_index s /\
    stats s2 = stats s /\
    history s !! Z.to_nat (history_index s) = Some g /\ grid s2 = g.
Proof.
  intros Hi. unfold undo.
  destruct (Z.ltb_spec 0 (history_index s)); [|lia].
  destruct (list_getitem_in (history s) (history_index s - 1)) as [g1 Hg1]; [lia|].
  destruct (lookup_lt_is_Some_2 (history s) (Z.to_nat (history_index s))) as [g Hg]; [lia|].
  rewrite Hg1. py_step. eexists. eexists.
  exists g. split; [reflexivity|]. unfold redo.
  cbn [history history_index set_grid set_history].
  destruct (Z.ltb_spec (history_index s - 1) (Z.of_nat (length (history s)) - 1)); [|lia].
  replace (history_index s - 1 + 1) with (history_index s) by lia.
  unfold list_getitem. rewrite axis_index_in by lia. py_step. rewrite Hg.
  split; [reflexivity|]. done.
Qed.

Lemma undo_then_redo_witness :
  0 < history_index edited_session < Z.of_nat (length (history edited_session)) /\
  exists s1 s2, undo edited_session = Ret s1 /\ redo s1 = Ret s2 /\
                history_index s2 = history_index edited_session.
Proof.
  split; [vm_compute; split; reflexivity|].
  destruct (undo_then_redo edited_session) as (s1 & s2 & g & H1 & H2 & _ & H3 & _);
    [vm_compute; split; reflexivity|].
  exists s1, s2. split; [exact H1|]. split; [exact H2|exact H3].
Defined.

(** A new record ends the redo branch: after [save_to_history] the cursor is
    on the last entry and [redo] does nothing. *)
Theorem record_discards_redo (s : GameOfLife) :
  -1 <= history_index s < Z.of_nat (length (history s)) ->
  history_index (save_to_history s) = Z.of_nat (length (history (save_to_history s))) - 1 /\
  redo (save_to_history s) = Ret (save_to_history s).
Proof.
  intros Hi.
  assert (Hlast : history_index (save_to_history s)
                  = Z.of_nat (length (history (save_to_history s))) - 1).
  { rewrite save_to_history_unfold by lia. cbv zeta.
    set (kept := take (Z.to_nat (history_index s + 1)) (history s)).
    assert (Hk : Z.of_nat (length kept) = history_index s + 1).
    { subst kept. rewrite length_take. lia. }
    destruct (Z.ltb_spec max_history (Z.of_nat (length kept) + 1)) as [H|H];
      cbn [history history_index set_history].
    - rewrite length_drop, length_app. simpl length. unfold max_history in H. lia.
    - rewrite length_app. simpl length. lia. }
  split; [exact Hlast|]. unfold redo. rewrite Hlast.
  destruct (Z.ltb_spec (Z.of_nat (length (history (save_to_history s))) - 1)
              (Z.of_nat (length (history (save_to_history s))) - 1)); [lia|reflexivity].
Qed.

Lemma record_discards_redo_witness :
  -1 <= history_index edited_session < Z.of_nat (length (history edited_session)) /\
  redo (save_to_history edited_session) = Ret (save_to_history edited_session).
Proof.
  split; [vm_compute; split; discriminate || reflexivity|].
  apply (record_discards_redo edited_session). vm_compute. split; discriminate || reflexivity.
Defined.

(** Recording the grids [gs] one after the other from the empty history
    leaves the last 50 of them in the history, oldest first, with the cursor
    on the newest. *)
Theorem records_keep_last_fifty (gs : list ndarray) (s : GameOfLife) :
  history s = [] -> history_index s = -1 ->
  exists s', run_ops (Record <$> gs) s = Ret s' /\
    history s' = drop (length gs - 50) gs /\
    history_index s' = Z.min (Z.of_nat (length gs)) 50 - 1.
Proof.
  intros Hh Hi. induction gs as [|g gs IH] using rev_ind.
  { exists s. split; [reflexivity|]. split; [exact Hh|]. rewrite Hi. reflexivity. }
  destruct IH as (s1 & Hrun & Hh1 & Hi1).
  unfold run_ops in *. rewrite fmap_app, for_each_app, Hrun. py_step.
  cbn [fmap list_fmap for_each apply_op]. py_step. eexists. split; [reflexivity|].
  assert (Hlen1 : Z.of_nat (length (history s1)) = Z.min (Z.of_nat (length gs)) 50).
  { rewrite Hh1, length_drop. lia. }
  rewrite save_to_history_unfold by (cbn [history_index set_grid]; lia). cbv zeta.
  cbn [history history_index grid set_grid].
  assert (Hkept : take (Z.to_nat (history_index s1 + 1)) (history s1) = history s1).
  { apply take_ge. lia. }
  rewrite Hkept. rewrite !length_app. simpl length.
  replace (Z.of_nat (length (history s1) + 1)) with (Z.of_nat (length (history s1)) + 1)
    by lia.
  destruct (Z.ltb_spec max_history (Z.of_nat (length (history s1)) + 1)) as [H|H];
    unfold max_history in H; cbn [history history_index set_history]; (split; [|lia]).
  - rewrite Hh1, drop_app_le by (rewrite length_drop; lia).
    rewrite drop_drop. rewrite drop_app_le by lia. f_equal. f_equal. lia.
  - rewrite Hh1. replace (length gs - 50)%nat with 0%nat by lia.
    replace (length gs + 1 - 50)%nat with 0%nat by lia. reflexivity.
Qed.

Lemma records_keep_last_fifty_witness :
  history GameOfLife_init = [] /\ history_index GameOfLife_init = -1 /\
  exists s', run_ops (Record <$> [blinker_grid; marked_grid]) GameOfLife_init = Ret s' /\
             history s' = [blinker_grid; marked_grid].
Proof.
  split; [reflexivity|]. split; [reflexivity|].
  destruct (records_keep_last_fifty [blinker_grid; marked_grid] GameOfLife_init)
    as (s' & H1 & H2 & _); [reflexivity..|].
  exists s'. split; [exact H1|exact H2].
Defined.

(** ** Drawing *)

(** [save_to_history] touches the history and nothing else. *)
Lemma save_to_history_frame (s : GameOfLife) :
  grid (save_to_history s) = grid s /\ stats (save_to_history s) = stats s /\
  draw_mode (save_to_history s) = draw_mode s /\
  is_drawing (save_to_history s) = is_drawing s /\
  grid_offset_x (save_to_history s) = grid_offset_x s /\
  grid_offset_y (save_to_history s) = grid_offset_y s.
Proof. unfold save_to_history. by destruct (max_history <? _). Qed.

Lemma stats_save_to_history (s : GameOfLife) : stats (save_to_history s) = stats s.
Proof. unfold save_to_history. by destruct (_ <? _), (_ <? _). Qed.

Lemma offsets_save_to_history (s : GameOfLife) :
  grid_offset_x (save_to_history s) = grid_offset_x s /\
  grid_offset_y (save_to_history s) = grid_offset_y s.
Proof. unfold save_to_history. by destruct (_ <? _), (_ <? _). Qed.

(** The two cases of [toggle_cell]: the pixel misses the grid or hits it. *)
Lemma toggle_cell_cases (x y : Z) (s : GameOfLife) :
  has_shape GRID_HEIGHT GRID_WIDTH (grid s) = true ->
  let grid_x := (x - grid_offset_x s) / CELL_SIZE in
  let grid_y := (y - grid_offset_y s) / CELL_SIZE in
  (hits s (x, y) = false -> toggle_cell x y s = Ret s) /\
  (hits s (x, y) = true ->
     exists s', toggle_cell x y s = Ret s' /\
       has_shape GRID_HEIGHT GRID_WIDTH (grid s') = true /\
       getitem (grid s') grid_y grid_x = Ret (if draw_mode s then 1 else 0) /\
       (forall r c, 0 <= r < GRID_HEIGHT -> 0 <= c < GRID_WIDTH ->
          (r, c) <> (grid_y, grid_x) -> getitem (grid s') r c = getitem (grid s) r c) /\
       stats s' = stats s /\ is_drawing s' = true /\ draw_mode s' = draw_mode s /\
       grid_offset_x s' = grid_offset_x s /\ grid_offset_y s' = grid_offset_y s /\
       history s' = (if is_drawing s then history s else history (save_to_history s)) /\
       history_index s' =
         (if is_drawing s then history_index s else history_index (save_to_history s))).
Proof.
  intros Hs grid_x grid_y. unfold hits, toggle_cell. cbn [fst snd]. fold grid_x grid_y.
  assert (Hcond : (0 <=? grid_x) && (grid_x <? GRID_WIDTH) && (0 <=? grid_y)
                  && (grid_y <? GRID_HEIGHT) = in_grid grid_y grid_x).
  { unfold in_grid. by destruct (0 <=? grid_x), (grid_x <? GRID_WIDTH), (0 <=? grid_y),
      (grid_y <? GRID_HEIGHT). }
  rewrite Hcond. split; intros Hin; rewrite Hin; [reflexivity|].
  apply in_grid_spec in Hin as [Hy Hx].
  set (s1 := if negb (is_drawing s) then set_is_drawing true (save_to_history s) else s).
  assert (H1 : grid s1 = grid s /\ stats s1 = stats s /\ draw_mode s1 = draw_mode s /\
               grid_offset_x s1 = grid_offset_x s /\ grid_offset_y s1 = grid_offset_y s /\
               is_drawing s1 = true /\
               history s1 = (if is_drawing s then history s else history (save_to_history s)) /\
               history_index s1 =
                 (if is_drawing s then history_index s else history_index (save_to_history s))).
  { subst s1. destruct (is_drawing s) eqn:Hd; cbn [negb]; [done|].
    destruct (save_to_history_frame s) as (Hf1 & Hf2 & Hf3 & _ & Hf5 & Hf6).
    cbn [grid stats draw_mode grid_offset_x grid_offset_y is_drawing history history_index
         set_is_drawing].
    rewrite Hf1, Hf2, Hf3, Hf5, Hf6. done. }
  destruct H1 as (Hg1 & Hst1 & Hdm1 & Hox1 & Hoy1 & Hdr1 & Hh1 & Hi1).
  destruct (setitem_in GRID_HEIGHT GRID_WIDTH (grid s1) grid_y grid_x
              (if draw_mode s1 then 1 else 0)) as (g' & Hset & Hs' & Hc');
    [by rewrite Hg1|done..|].
  rewrite Hset. py_step. eexists. split; [reflexivity|].
  cbn [grid stats is_drawing draw_mode grid_offset_x grid_offset_y history history_index
       set_grid].
  split; [exact Hs'|]. split.
  { rewrite (getitem_cell GRID_HEIGHT GRID_WIDTH) by done. rewrite Hc' by done.
    rewrite !Z.eqb_refl. cbn [andb]. by rewrite Hdm1. }
  split.
  { intros r c Hr Hc Hne.
    rewrite !(getitem_cell GRID_HEIGHT GRID_WIDTH) by done. rewrite Hc' by done.
    destruct (Z.eqb_spec r grid_y) as [->|]; [|by rewrite Hg1].
    destruct (Z.eqb_spec c grid_x) as [->|]; [by destruct Hne|by rewrite Hg1]. }
  done.
Qed.

(** [toggle_cell] on a pixel outside the grid does nothing. On a pixel inside
    it returns, sets the cell under the pixel to 1 when drawing and to 0 when
    erasing, and leaves every other cell and the statistics alone; the history
    is recorded only if no stroke was in progress, and a stroke is in progress
    afterwards. *)
Theorem toggle_cell_spec (x y : Z) (s : GameOfLife) :
  has_shape GRID_HEIGHT GRID_WIDTH (grid s) = true ->
  let grid_x := (x - grid_offset_x s) / CELL_SIZE in
  let grid_y := (y - grid_offset_y s) / CELL_SIZE in
  (hits s (x, y) = false -> toggle_cell x y s = Ret s) /\
  (hits s (x, y) = true ->
     exists s', toggle_cell x y s = Ret s' /\
       has_shape GRID_HEIGHT GRID_WIDTH (grid s') = true /\
       getitem (grid s') grid_y grid_x = Ret (if draw_mode s then 1 else 0) /\
       (forall r c, 0 <= r < GRID_HEIGHT -> 0 <= c < GRID_WIDTH ->
          (r, c) <> (grid_y, grid_x) -> getitem (grid s') r c = getitem (grid s) r c) /\
       stats s' = stats s /\ is_drawing s' = true /\ draw_mode s' = draw_mode s /\
       grid_offset_x s' = grid_offset_x s /\ grid_offset_y s' = grid_offset_y s /\
       history s' = (if is_drawing s then history s else history (save_to_history s)) /\
       history_index s' =
         (if is_drawing s then history_index s else history_index (save_to_history s))).
Proof. exact (toggle_cell_cases x y s). Qed.

Lemma toggle_cell_spec_witness :
  has_shape GRID_HEIGHT GRID_WIDTH (grid blinker_session) = true /\
  hits blinker_session (100, 150) = true /\
  exists s', toggle_cell 100 150 blinker_session = Ret s' /\ is_drawing s' = true.
Proof.
  split; [reflexivity|]. split; [reflexivity|].
  destruct (toggle_cell_spec 100 150 blinker_session) as [_ H]; [reflexivity|].
  destruct H as (s' & H1 & _ & _ & _ & _ & H2 & _); [reflexivity|].
  exists s'. split; [exact H1|exact H2].
Defined.

(** While a stroke is in progress, further [toggle_cell] calls record nothing. *)
Lemma stroke_in_progress (points : list (Z * Z)) (s : GameOfLife) :
  has_shape GRID_HEIGHT GRID_WIDTH (grid s) = true -> is_drawing s = true ->
  exists s', for_each points (fun s p => toggle_cell (fst p) (snd p) s) s = Ret s' /\
    history s' = history s /\ history_index s' = history_index s.
Proof.
  revert s. induction points as [|[x y] points IH]; intros s Hs Hd.
  { by exists s. }
  cbn [for_each fst snd].
  destruct (toggle_cell_cases x y s Hs) as [Hmiss Hhit].
  destruct (hits s (x, y)) eqn:Hh.
  - destruct (Hhit eq_refl) as (s1 & Hrun & Hs1 & _ & _ & _ & Hd1 & _ & _ & _ & Hh1 & Hi1).
    rewrite Hrun. py_step. rewrite Hd in Hh1, Hi1.
    destruct (IH s1 Hs1 Hd1) as (s' & Hrun' & Hh' & Hi').
    exists s'. split; [exact Hrun'|]. by rewrite Hh', Hi'.
  - rewrite (Hmiss eq_refl). py_step. by apply IH.
Qed.

(** A drag is a sequence of [toggle_cell] calls begun with no stroke in
    progress. However many cells it touches, it records the history exactly
    once, before the first cell it changes, and not at all if it never enters
    the grid. *)
Theorem one_record_per_stroke (points : list (Z * Z)) (s : GameOfLife) :
  has_shape GRID_HEIGHT GRID_WIDTH (grid s) = true -> is_drawing s = false ->
  exists s', for_each points (fun s p => toggle_cell (fst p) (snd p) s) s = Ret s' /\
    history s' =
      (if existsb (hits s) points then history (save_to_history s) else history s) /\
    history_index s' =
      (if existsb (hits s) points then history_index (save_to_history s)
       else history_index s).
Proof.
  intros Hs Hd. induction points as [|[x y] points IH].
  { by exists s. }
  cbn [for_each fst snd existsb].
  destruct (toggle_cell_cases x y s Hs) as [Hmiss Hhit].
  destruct (hits s (x, y)) eqn:Hh; cbn [orb].
  - destruct (Hhit eq_refl) as (s1 & Hrun & Hs1 & _ & _ & _ & Hd1 & _ & _ & _ & Hh1 & Hi1).
    rewrite Hrun. py_step. rewrite Hd in Hh1, Hi1.
    destruct (stroke_in_progress points s1 Hs1 Hd1) as (s' & Hrun' & Hh' & Hi').
    exists s'. split; [exact Hrun'|]. by rewrite Hh', Hi'.
  - rewrite (Hmiss eq_refl). py_step. exact IH.
Qed.

Lemma one_record_per_stroke_witness :
  has_shape GRID_HEIGHT GRID_WIDTH (grid blinker_session) = true /\
  is_drawing blinker_session = false /\
  exists s', for_each [(100, 150); (112, 150); (124, 162)]
               (fun s p => toggle_cell (fst p) (snd p) s) blinker_session = Ret s' /\
             history s' = [blinker_grid].
Proof.
  split; [reflexivity|]. split; [reflexivity|].
  destruct (one_record_per_stroke [(100, 150); (112, 150); (124, 162)] blinker_session)
    as (s' & H1 & H2 & _); [reflexivity..|].
  exists s'. split; [exact H1|]. rewrite H2. reflexivity.
Defined.

(** ** Grids of another size *)

Lemma for_each_raises {A St : Type} (xs : list A) (body : St -> A -> py St) (s : St) (e : exn) :
  for_each xs body s = Raise e -> exists a x, x ∈ xs /\ body a x = Raise e.
Proof.
  revert s. induction xs as [|x xs IH]; intros s H; simpl in H; [done|].
  destruct (body s x) as [s1|e1] eqn:Hb; simpl in H.
  - destruct (IH s1 H) as (a & x' & Hx' & Ha). exists a, x'. split; [by right|done].
  - injection H as ->. exists s, x. split; [by left|done].
Qed.

Lemma for_each_returns {A St : Type} (xs : list A) (body : St -> A -> py St) (s s' : St) :
  for_each xs body s = Ret s' -> forall x, x ∈ xs -> exists a a', body a x = Ret a'.
Proof.
  revert s. induction xs as [|x xs IH]; intros s H y Hy; simpl in H.
  { by apply elem_of_nil in Hy. }
  destruct (body s x) as [s1|e1] eqn:Hb; simpl in H; [|done].
  apply elem_of_cons in Hy as [->|Hy]; [by exists s, s1|]. by apply (IH s1).
Qed.

Lemma axis_index_raises (n : nat) (i : Z) (e : exn) :
  axis_index n i = Raise e -> e = IndexError.
Proof.
  unfold axis_index. destruct (_ && _); [done|]. destruct (_ && _); [done|]. congruence.
Qed.

Lemma getitem_raises (a : ndarray) (r c : Z) (e : exn) :
  getitem a r c = Raise e -> e = IndexError.
Proof.
  unfold getitem. destruct (axis_index (length a) r) as [i|e1] eqn:Hi; py_step.
  - destruct (a !! i) as [row|]; [|congruence].
    destruct (axis_index (length row) c) as [j|e2] eqn:Hj; py_step.
    + destruct (row !! j); congruence.
    + intros [= <-]. by apply axis_index_raises in Hj.
  - intros [= <-]. by apply axis_index_raises in Hi.
Qed.

Lemma setitem_raises (a : ndarray) (r c v : Z) (e : exn) :
  setitem a r c v = Raise e -> e = IndexError.
Proof.
  unfold setitem. destruct (axis_index (length a) r) as [i|e1] eqn:Hi; py_step.
  - destruct (a !! i) as [row|]; [|congruence].
    destruct (axis_index (length row) c) as [j|e2] eqn:Hj; py_step; [done|].
    intros [= <-]. by apply axis_index_raises in Hj.
  - intros [= <-]. by apply axis_index_raises in Hi.
Qed.

Lemma get_neighbors_raises (g : ndarray) (row col : Z) (e : exn) :
  get_neighbors g row col = Raise e -> e = IndexError.
Proof.
  unfold get_neighbors. intros H.
  apply for_each_raises in H as (count & dr & _ & H).
  apply for_each_raises in H as (count' & dc & _ & H).
  destruct ((dr =? 0) && (dc =? 0)); [done|].
  destruct (in_grid (row + dr) (col + dc)); [|done].
  destruct (getitem g (row + dr) (col + dc)) as [x|e1] eqn:Hg; py_step; [done|].
  injection H as <-. by apply getitem_raises in Hg.
Qed.

Lemma update_cell_raises (g : ndarray) (row : Z) (acc : ndarray * Z * Z) (col : Z) (e : exn) :
  update_cell g row acc col = Raise e -> e = IndexError.
Proof.
  unfold update_cell. destruct acc as [[new b] d].
  destruct (get_neighbors g row col) as [n|e1] eqn:Hn; py_step;
    [|intros [= <-]; by apply get_neighbors_raises in Hn].
  destruct (getitem g row col) as [x|e2] eqn:Hx; py_step;
    [|intros [= <-]; by apply getitem_raises in Hx].
  destruct (x =? 1), ((n =? 2) || (n =? 3)), (n =? 3); try done;
    (destruct (setitem new row col 1) as [new'|e3] eqn:Hset; py_step;
     [done|intros [= <-]; by apply setitem_raises in Hset]).
Qed.

Lemma update_cell_reads (g : ndarray) (row : Z) (acc acc' : ndarray * Z * Z) (col : Z) :
  update_cell g row acc col = Ret acc' -> exists v, getitem g row col = Ret v.
Proof.
  unfold update_cell. destruct acc as [[new b] d].
  destruct (get_neighbors g row col); py_step; [|done].
  destruct (getitem g row col) as [v|]; py_step; [|done]. by exists v.
Qed.

(** A cell of the 60 by 100 area that cannot be read stops [update_grid]. *)
Lemma update_grid_unreadable_cell (s : GameOfLife) (r c : Z) :
  0 <= r < GRID_HEIGHT -> 0 <= c < GRID_WIDTH ->
  getitem (grid s) r c = Raise IndexError ->
  update_grid s = Raise IndexError.
Proof.
  intros Hr Hc Hread. unfold update_grid. cbn [grid set_previous_grid].
  destruct (next_generation (grid s)) as [[[new b] d]|e] eqn:Hrun; py_step.
  - exfalso. unfold next_generation in Hrun.
    destruct (for_each_returns _ _ _ _ Hrun r) as (acc & acc' & Hrow);
      [apply elem_of_seqZ; lia|].
    destruct (for_each_returns _ _ _ _ Hrow c) as (a & a' & Hcell);
      [apply elem_of_seqZ; lia|].
    apply update_cell_reads in Hcell as [v Hv]. congruence.
  - f_equal. unfold next_generation in Hrun.
    apply for_each_raises in Hrun as (acc & row & _ & Hrow).
    apply for_each_raises in Hrow as (a & col & _ & Hcell).
    by apply update_cell_raises in Hcell.
Qed.

(** [update_grid] reads every cell of the 60 by 100 area whatever the shape
    of the grid: where one of them cannot be read, as in a smaller grid that
    [load_pattern] has installed, it raises [IndexError]. *)
Theorem update_grid_on_small_grid (s : GameOfLife) (r c : Z) :
  0 <= r < GRID_HEIGHT -> 0 <= c < GRID_WIDTH ->
  getitem (grid s) r c = Raise IndexError ->
  update_grid s = Raise IndexError.
Proof. exact (update_grid_unreadable_cell s r c). Qed.

Lemma update_grid_on_small_grid_witness :
  0 <= 1 < GRID_HEIGHT /\ 0 <= 0 < GRID_WIDTH /\
  getitem (grid (set_grid [[1]] GameOfLife_init)) 1 0 = Raise IndexError /\
  update_grid (set_grid [[1]] GameOfLife_init) = Raise IndexError.
Proof.
  split; [done|]. split; [done|]. split; [reflexivity|].
  apply (update_grid_on_small_grid (set_grid [[1]] GameOfLife_init) 1 0); done.
Defined.

(** ** More on loading *)

(** [np.array(g.tolist())] is [g] for every non-empty 0/1 matrix. *)
Lemma int_matrix_tolist_shape (h w : Z) (g : ndarray) :
  has_shape h w g = true -> 0 < h -> 0 < w -> is_binary g = true ->
  int_matrix (tolist g) = Some g.
Proof.
  intros Hs Hh Hw Hb. unfold int_matrix, tolist.
  rewrite mapM_int_row_tolist by by apply is_binary_spec. cbn [mbind option_bind].
  pose proof (has_shape_length _ _ _ Hs) as Hlen.
  destruct g as [|row g]; [simpl in Hlen; lia|].
  pose proof (has_shape_row _ _ (row :: g) 0 row Hs eq_refl) as Hrow.
  assert ((0 <? length row)%nat = true) as -> by (apply Nat.ltb_lt; lia).
  assert (forallb (fun r => (length r =? length row)%nat) (row :: g) = true) as ->; [|done].
  apply forallb_forall. intros r Hr. apply Nat.eqb_eq.
  apply list_elem_of_In, list_elem_of_lookup in Hr as [i Hi].
  pose proof (has_shape_row _ _ _ _ _ Hs Hi). lia.
Qed.

(** [load_pattern] on a document with a grid and no or empty statistics. *)
Lemma load_pattern_installs (h w : Z) (g : ndarray) (s0 : GameOfLife) :
  has_shape h w g = true -> 0 < h -> 0 < w -> is_binary g = true ->
  load_pattern (Some (Document (JObject [("grid"%string, tolist g)]))) s0 =
    Finished (set_grid g (save_to_history s0)) None /\
  load_pattern (Some (Document (JObject [("grid"%string, tolist g);
                                         ("stats"%string, JObject [])]))) s0 =
    Finished
      (set_stats
         {| generation := PyInt 0; population := PyInt 0;
            births := births (stats s0); deaths := deaths (stats s0);
            max_population := PyInt 0; total_births := PyInt 0;
            total_deaths := PyInt 0 |}
         (set_grid g (save_to_history s0))) None.
Proof.
  intros Hs Hh Hw Hb. pose proof (int_matrix_tolist_shape h w g Hs Hh Hw Hb) as Hg.
  split; unfold load_pattern.
  - change (dict_get "grid" _) with (Some (tolist g)). cbv beta iota. rewrite Hg.
    reflexivity.
  - change (dict_get "grid" _) with (Some (tolist g)). cbv beta iota. rewrite Hg.
    cbn. by rewrite stats_save_to_history.
Qed.

(** [load_pattern] does not look at the dimensions of the stored grid: it
    installs a 0/1 matrix of any shape. Without a "stats" entry the statistics
    stay as they are; with an empty one the five stored fields become 0 and
    the per-step births and deaths stay. *)
Theorem load_pattern_any_shape (h w : Z) (g : ndarray) (s0 : GameOfLife) :
  has_shape h w g = true -> 0 < h -> 0 < w -> is_binary g = true ->
  load_pattern (Some (Document (JObject [("grid"%string, tolist g)]))) s0 =
    Finished (set_grid g (save_to_history s0)) None /\
  load_pattern (Some (Document (JObject [("grid"%string, tolist g);
                                         ("stats"%string, JObject [])]))) s0 =
    Finished
      (set_stats
         {| generation := PyInt 0; population := PyInt 0;
            births := births (stats s0); deaths := deaths (stats s0);
            max_population := PyInt 0; total_births := PyInt 0;
            total_deaths := PyInt 0 |}
         (set_grid g (save_to_history s0))) None.
Proof. exact (load_pattern_installs h w g s0). Qed.

Lemma load_pattern_any_shape_witness :
  has_shape 1 1 [[1]] = true /\ 0 < 1 /\ is_binary [[1]] = true /\
  load_pattern (Some (Document (JObject [("grid"%string, tolist [[1]])]))) blinker_session =
    Finished (set_grid [[1]] (save_to_history blinker_session)) None.
Proof.
  split; [reflexivity|]. split; [done|]. split; [reflexivity|].
  apply (load_pattern_any_shape 1 1 [[1]] blinker_session); done.
Defined.

(** Loading a grid with fewer than 60 rows or fewer than 100 columns succeeds,
    and the next step raises [IndexError]. *)
Theorem step_after_loading_small_grid (h w : Z) (g : ndarray) (s0 : GameOfLife) :
  has_shape h w g = true -> 0 < h -> 0 < w -> is_binary g = true ->
  h < GRID_HEIGHT \/ w < GRID_WIDTH ->
  exists s',
    load_pattern (Some (Document (JObject [("grid"%string, tolist g)]))) s0
      = Finished s' None /\
    grid s' = g /\
    update_grid s' = Raise IndexError.
Proof.
  intros Hs Hh Hw Hb Hsmall.
  destruct (load_pattern_installs h w g s0 Hs Hh Hw Hb) as [Hload _].
  eexists. split; [exact Hload|]. split; [reflexivity|].
  pose proof (has_shape_length _ _ _ Hs) as Hlen.
  destruct (Z.lt_ge_cases h GRID_HEIGHT) as [Hrows|Hrows].
  - apply (update_grid_unreadable_cell _ h 0); [lia|pose proof GRID_WIDTH_pos; lia|].
    cbn [grid set_grid]. unfold getitem. rewrite axis_index_above by lia. reflexivity.
  - assert (Hcols : w < GRID_WIDTH) by lia.
    apply (update_grid_unreadable_cell _ 0 w); [pose proof GRID_HEIGHT_pos; lia|lia|].
    cbn [grid set_grid]. unfold getitem. rewrite axis_index_in by lia. py_step.
    destruct (lookup_lt_is_Some_2 g (Z.to_nat 0)) as [row Hrow]; [lia|].
    rewrite Hrow. pose proof (has_shape_row _ _ _ _ _ Hs Hrow).
    rewrite axis_index_above by lia. reflexivity.
Qed.

Lemma step_after_loading_small_grid_witness :
  has_shape 1 1 [[1]] = true /\ 0 < 1 /\ is_binary [[1]] = true /\
  (1 < GRID_HEIGHT \/ 1 < GRID_WIDTH) /\
  exists s',
    load_pattern (Some (Document (JObject [("grid"%string, tolist [[1]])]))) blinker_session
      = Finished s' None /\
    update_grid s' = Raise IndexError.
Proof.
  split; [reflexivity|]. split; [done|]. split; [reflexivity|]. split; [by left|].
  destruct (step_after_loading_small_grid 1 1 [[1]] blinker_session)
    as (s' & H1 & _ & H2); [done|done|done|done|by left|].
  exists s'. split; [exact H1|exact H2].
Defined.

(** A session that has loaded a file written by [save_pattern] writes the same
    file when it saves: the stored fields are built-in integers again. *)
Theorem save_after_load (g : ndarray) (ge po mp tb td : Z) (s0 : GameOfLife) :
  well_formed g = true ->
  let doc :=
    JObject [
      ("grid"%string, tolist g);
      ("stats"%string, JObject [
         ("generation"%string, JInt ge);
         ("population"%string, JInt po);
         ("max_population"%string, JInt mp);
         ("total_births"%string, JInt tb);
         ("total_deaths"%string, JInt td)])] in
  exists s', load_pattern (Some (Document doc)) s0 = Finished s' None /\
             save_pattern s' = (Document doc, None).
Proof.
  intros Hwf doc. subst doc.
  rewrite load_saved_document by by apply int_matrix_tolist.
  eexists. split; [reflexivity|]. reflexivity.
Qed.

Lemma save_after_load_witness :
  well_formed blinker_grid = true /\
  exists s' doc, load_pattern (Some (Document doc)) GameOfLife_init = Finished s' None /\
                 save_pattern s' = (Document doc, None).
Proof.
  split; [reflexivity|].
  destruct (save_after_load blinker_grid 7 3 5 9 6 GameOfLife_init) as (s' & H1 & H2);
    [reflexivity|].
  eexists s', _. split; [exact H1|exact H2].
Defined.

(** ** The two neighbour counts *)

Lemma moore_offsets_bounds (d : Z * Z) :
  d ∈ moore_offsets -> -1 <= fst d <= 1 /\ -1 <= snd d <= 1.
Proof.
  unfold moore_offsets. rewrite !elem_of_cons, elem_of_nil.
  intros [->|[->|[->|[->|[->|[->|[->|[->|[]]]]]]]]]; simpl; lia.
Qed.

(** Away from the border the clamped scan of [get_neighbors] and the wrapped
    convolution of the Gemini variant count the same cells, so the two
    variants compute the same next value there. *)
Theorem interior_counts_agree (g : ndarray) (t : Gemini.GameOfLife) (r c : Z) :
  well_formed g = true -> Gemini.grid t = g ->
  1 <= r <= GRID_HEIGHT - 2 -> 1 <= c <= GRID_WIDTH - 2 ->
  get_neighbors g r c = Ret (Gemini.entry (Gemini.convolve2d g Gemini.kernel) r c) /\
  Gemini.entry (Gemini.grid (Gemini.step t)) r c = next_state g r c.
Proof.
  intros Hwf Ht Hr Hc. pose proof (well_formed_shape _ Hwf) as Hs.
  destruct (get_neighbors_clamped g r c Hwf) as [Heq _].
  assert (Hcount : Gemini.entry (Gemini.convolve2d g Gemini.kernel) r c = clamped_count g r c).
  { rewrite (convolve2d_toroidal GRID_HEIGHT GRID_WIDTH) by (done || lia).
    unfold toroidal_count, clamped_count. apply sum_over_ext. intros d Hd.
    apply moore_offsets_bounds in Hd as [Hd1 Hd2].
    assert (Hin : in_grid (r + fst d) (c + snd d) = true) by (apply in_grid_spec; lia).
    rewrite Hin, !Z.mod_small by lia. symmetry.
    apply (cell_entry GRID_HEIGHT GRID_WIDTH); [done|lia|lia]. }
  split; [by rewrite Hcount|].
  rewrite (gemini_step_entry GRID_HEIGHT GRID_WIDTH) by (rewrite ?Ht; done || lia).
  cbv zeta. rewrite Ht, Hcount.
  rewrite <- (cell_entry GRID_HEIGHT GRID_WIDTH) by (done || lia).
  unfold next_state, rule, neighbors. rewrite Heq.
  destruct (well_formed_cell g r c Hwf) as [-> | ->]; [lia|lia| |];
    destruct (Z.eqb_spec (clamped_count g r c) 2), (Z.eqb_spec (clamped_count g r c) 3);
    simpl; done || lia.
Qed.

Lemma interior_counts_agree_witness :
  well_formed blinker_grid = true /\
  1 <= 4 <= GRID_HEIGHT - 2 /\ 1 <= 6 <= GRID_WIDTH - 2 /\
  exists t, Gemini.grid t = blinker_grid /\
    Gemini.entry (Gemini.grid (Gemini.step t)) 4 6 = next_state blinker_grid 4 6.
Proof.
  split; [reflexivity|]. split; [done|]. split; [done|].
  exists (Gemini.set_grid blinker_grid small_torus). split; [reflexivity|].
  apply (interior_counts_agree blinker_grid (Gemini.set_grid blinker_grid small_torus) 4 6);
    done.
Defined.

(** ** More on the Gemini variant *)

Lemma zip_with_rows {A B C : Type} (f : A -> B -> C)
    (a : list (list A)) (b : list (list B)) (n m : nat) :
  length a = n -> length b = n ->
  Forall (fun row => length row = m) a -> Forall (fun row => length row = m) b ->
  length (zip_with (zip_with f) a b) = n /\
  Forall (fun row => length row = m) (zip_with (zip_with f) a b).
Proof.
  intros Ha Hb Hra Hrb. split; [rewrite length_zip_with; lia|].
  apply Forall_lookup_2. intros i row Hrow.
  apply lookup_zip_with_Some in Hrow as (ra & rb & -> & Hia & Hib).
  pose proof (Forall_lookup_1 _ _ _ _ Hra Hia) as H1.
  pose proof (Forall_lookup_1 _ _ _ _ Hrb Hib) as H2. simpl in H1, H2.
  rewrite length_zip_with. lia.
Qed.

Lemma has_shape_nat (h w : Z) (a : ndarray) :
  has_shape h w a = true <->
  Z.of_nat (length a) = h /\ (0 <= w \/ a = []) /\
  Forall (fun row => length row = Z.to_nat w) a.
Proof.
  rewrite has_shape_spec. split.
  - intros [Hl Hf]. split; [done|]. destruct a as [|row a]; [by split; [right|]|].
    split.
    + left. apply Forall_cons in Hf as [H _]. lia.
    + eapply Forall_impl; [exact Hf|]. simpl. intros; lia.
  - intros (Hl & Hw & Hf). split; [done|]. destruct Hw as [Hw| ->]; [|constructor].
    eapply Forall_impl; [exact Hf|]. simpl. intros; lia.
Qed.

(** Shape and values of the grid after [step]. *)
Lemma gemini_step_shape (h w : Z) (s : Gemini.GameOfLife) :
  has_shape h w (Gemini.grid s) = true ->
  has_shape h w (Gemini.grid (Gemini.step s)) = true /\
  is_binary (Gemini.grid (Gemini.step s)) = true.
Proof.
  intros Hs.
  assert (Hshape : has_shape h w (Gemini.grid (Gemini.step s)) = true).
  { destruct (Z.le_gt_cases h 0) as [Hh|Hh].
    - pose proof (has_shape_length _ _ _ Hs) as Hlen.
      destruct (Gemini.grid s) as [|row g] eqn:Hg; [|simpl in Hlen; lia].
      unfold Gemini.step. rewrite Hg. cbn. exact Hs.
    - assert (Hnc : has_shape h w (Gemini.convolve2d (Gemini.grid s) Gemini.kernel) = true).
      { unfold Gemini.convolve2d. rewrite (shape_of h w) by (done || lia).
        change (Gemini.shape Gemini.kernel) with (3, 3). cbv beta iota.
        pose proof (has_shape_length _ _ _ Hs) as Hlen.
        destruct (Gemini.grid s) as [|row g] eqn:Hg; [simpl in Hlen; lia|].
        pose proof (has_shape_row _ _ (row :: g) 0 row Hs eq_refl).
        apply tabulate_shape; lia. }
      apply has_shape_nat in Hs as (Hl & Hw & Hf).
      apply has_shape_nat in Hnc as (Hl' & Hw' & Hf').
      apply has_shape_nat. unfold Gemini.step. cbn [Gemini.grid].
      destruct (zip_with_rows (fun x n => (x =? 0) && (n =? 3)) (Gemini.grid s)
                  (Gemini.convolve2d (Gemini.grid s) Gemini.kernel)
                  (Z.to_nat h) (Z.to_nat w)) as [Hb1 Hb2]; [lia|lia|done|done|].
      destruct (zip_with_rows (fun x n => (x =? 1) && ((n =? 2) || (n =? 3))) (Gemini.grid s)
                  (Gemini.convolve2d (Gemini.grid s) Gemini.kernel)
                  (Z.to_nat h) (Z.to_nat w)) as [Hs1 Hs2]; [lia|lia|done|done|].
      destruct (zip_with_rows (fun b v : bool => Z.b2z (b || v)) _ _
                  (Z.to_nat h) (Z.to_nat w) Hb1 Hs1 Hb2 Hs2) as [Hg1 Hg2].
      split; [lia|]. split; [|exact Hg2].
      destruct Hw as [Hw| Hnil]; [by left|]. rewrite Hnil in Hl. simpl in Hl. lia. }
  split; [exact Hshape|].
  apply (cells_binary h w); [exact Hshape|]. intros r c Hr Hc.
  rewrite (cell_entry h w) by done. rewrite (gemini_step_entry h w) by done. cbv zeta.
  destruct (_ || _); auto.
Qed.

(** The vectorised [step] keeps the shape of the grid and leaves only the
    values 0 and 1 in it, whatever values were there before. *)
Theorem gemini_step_well_formed (h w : Z) (s : Gemini.GameOfLife) :
  has_shape h w (Gemini.grid s) = true ->
  has_shape h w (Gemini.grid (Gemini.step s)) = true /\
  is_binary (Gemini.grid (Gemini.step s)) = true.
Proof. exact (gemini_step_shape h w s). Qed.

Lemma gemini_step_well_formed_witness :
  has_shape 3 3 (Gemini.grid small_torus) = true /\
  is_binary (Gemini.grid (Gemini.step small_torus)) = true.
Proof.
  split; [reflexivity|].
  apply (gemini_step_well_formed 3 3 small_torus). reflexivity.
Defined.

Lemma matrix_ext_entry (h w : Z) (a b : ndarray) :
  has_shape h w a = true -> has_shape h w b = true ->
  (forall r c, 0 <= r < h -> 0 <= c < w -> Gemini.entry a r c = Gemini.entry b r c) ->
  a = b.
Proof.
  intros Ha Hb Heq. apply (matrix_ext h w); [done..|]. intros r c Hr Hc.
  rewrite !(cell_entry h w) by done. by apply Heq.
Qed.

Lemma gemini_clear_grid_shape (h w : Z) (s : Gemini.GameOfLife) :
  has_shape h w (Gemini.grid s) = true ->
  has_shape h w (Gemini.grid (Gemini.clear_grid s)) = true /\
  forall r c, 0 <= r < h -> 0 <= c < w ->
    Gemini.entry (Gemini.grid (Gemini.clear_grid s)) r c = 0.
Proof.
  intros Hs. cbn [Gemini.grid Gemini.clear_grid].
  assert (Hshape : has_shape h w
            ((fun row : list Z => (fun _ : Z => 0) <$> row) <$> Gemini.grid s) = true).
  { apply has_shape_spec in Hs as [Hl Hf]. apply has_shape_spec.
    rewrite length_fmap. split; [done|]. apply Forall_fmap.
    eapply Forall_impl; [exact Hf|]. simpl. intros row Hrow. by rewrite length_fmap. }
  split; [exact Hshape|]. intros r c Hr Hc.
  destruct (getitem_in h w _ r c Hshape Hr Hc) as (row & v & Hrow & Hv & _).
  unfold Gemini.entry. rewrite Hrow, Hv. simpl.
  rewrite list_lookup_fmap in Hrow.
  destruct (Gemini.grid s !! Z.to_nat r) as [row0|]; [|done].
  injection Hrow as <-. rewrite list_lookup_fmap in Hv.
  destruct (row0 !! Z.to_nat c); [|done]. by injection Hv as <-.
Qed.

(** After the Gemini variant's [clear_grid] the grid has its old shape and no
    live cell, the generation is 0, and a [step] leaves the grid empty. *)
Theorem gemini_step_after_clear (h w : Z) (s : Gemini.GameOfLife) :
  has_shape h w (Gemini.grid s) = true ->
  has_shape h w (Gemini.grid (Gemini.clear_grid s)) = true /\
  Gemini.generation (Gemini.clear_grid s) = 0 /\
  (forall r c, 0 <= r < h -> 0 <= c < w ->
     Gemini.entry (Gemini.grid (Gemini.clear_grid s)) r c = 0) /\
  Gemini.grid (Gemini.step (Gemini.clear_grid s)) = Gemini.grid (Gemini.clear_grid s).
Proof.
  intros Hs. destruct (gemini_clear_grid_shape h w s Hs) as [Hshape Hzero].
  split; [exact Hshape|]. split; [reflexivity|]. split; [exact Hzero|].
  destruct (gemini_step_shape h w (Gemini.clear_grid s) Hshape) as [Hstep _].
  apply (matrix_ext_entry h w); [exact Hstep|exact Hshape|]. intros r c Hr Hc.
  rewrite (gemini_step_entry h w) by done. cbv zeta.
  rewrite (convolve2d_toroidal h w) by done. rewrite Hzero by done.
  assert (Hn : toroidal_count h w (Gemini.grid (Gemini.clear_grid s)) r c = 0).
  { unfold toroidal_count. apply sum_over_zero. intros d _.
    apply Hzero; apply Z.mod_pos_bound; lia. }
  rewrite Hn. reflexivity.
Qed.

Lemma gemini_step_after_clear_witness :
  has_shape 3 3 (Gemini.grid small_torus) = true /\
  Gemini.grid (Gemini.step (Gemini.clear_grid small_torus)) =
  Gemini.grid (Gemini.clear_grid small_torus).
Proof.
  split; [reflexivity|].
  apply (gemini_step_after_clear 3 3 small_torus). reflexivity.
Defined.

(** The Gemini variant's [draw_on_grid], with [draw_mode] 0 or 1 as the
    program sets it, does nothing over the side panel or off the grid. On the
    grid it returns and writes [1 - draw_mode] into the cell of the grid and
    of [prev_grid], and changes no other cell. *)
Theorem gemini_draw_on_grid_spec (mouse_x grid_x grid_y : Z) (s : Gemini.GameOfLife) :
  has_shape (Gemini.grid_height s) (Gemini.grid_width s) (Gemini.grid s) = true ->
  has_shape (Gemini.grid_height s) (Gemini.grid_width s) (Gemini.prev_grid s) = true ->
  Gemini.draw_mode s = 0 \/ Gemini.draw_mode s = 1 ->
  let on_grid :=
    (0 <=? grid_x) && (grid_x <? Gemini.grid_width s)
    && (0 <=? grid_y) && (grid_y <? Gemini.grid_height s) in
  (Gemini.SCREEN_WIDTH - Gemini.PANEL_WIDTH <= mouse_x \/ on_grid = false ->
     Gemini.draw_on_grid mouse_x (grid_x, grid_y) s = Ret s) /\
  (mouse_x < Gemini.SCREEN_WIDTH - Gemini.PANEL_WIDTH -> on_grid = true ->
     exists s', Gemini.draw_on_grid mouse_x (grid_x, grid_y) s = Ret s' /\
       Gemini.generation s' = Gemini.generation s /\
       forall r c, 0 <= r < Gemini.grid_height s -> 0 <= c < Gemini.grid_width s ->
         Gemini.entry (Gemini.grid s') r c =
           (if (r =? grid_y) && (c =? grid_x) then 1 - Gemini.draw_mode s
            else Gemini.entry (Gemini.grid s) r c) /\
         Gemini.entry (Gemini.prev_grid s') r c =
           (if (r =? grid_y) && (c =? grid_x) then 1 - Gemini.draw_mode s
            else Gemini.entry (Gemini.prev_grid s) r c)).
Proof.
  intros Hg Hp Hmode on_grid. unfold Gemini.draw_on_grid. fold on_grid. split.
  - intros [Hx|Hoff].
    + destruct (Z.leb_spec (Gemini.SCREEN_WIDTH - Gemini.PANEL_WIDTH) mouse_x); [done|lia].
    + rewrite Hoff. by destruct (Gemini.SCREEN_WIDTH - Gemini.PANEL_WIDTH <=? mouse_x).
  - intros Hx Hon. rewrite Hon.
    destruct (Z.leb_spec (Gemini.SCREEN_WIDTH - Gemini.PANEL_WIDTH) mouse_x); [lia|].
    subst on_grid. rewrite !andb_true_iff, !Z.leb_le, !Z.ltb_lt in Hon.
    set (gh := Gemini.grid_height s) in *. set (gw := Gemini.grid_width s) in *.
    destruct (setitem_in gh gw (Gemini.grid s) grid_y grid_x (1 - Gemini.draw_mode s))
      as (g' & Hset & Hg' & Hcg); [done|lia|lia|].
    unfold Gemini.setitem_uint8. rewrite Hset. py_step.
    assert (Hfits : (0 <=? 1 - Gemini.draw_mode s) && (1 - Gemini.draw_mode s <=? 255) = true)
      by (destruct Hmode as [-> | ->]; reflexivity).
    rewrite Hfits. py_step.
    rewrite (getitem_cell gh gw) by (done || lia). py_step.
    destruct (setitem_in gh gw (Gemini.prev_grid s) grid_y grid_x (cell g' grid_y grid_x))
      as (p' & Hsetp & Hp' & Hcp); [done|lia|lia|].
    rewrite Hsetp. py_step. eexists. split; [reflexivity|]. split; [reflexivity|].
    cbn [Gemini.grid Gemini.prev_grid]. intros r c Hr Hc.
    assert (Hv : cell g' grid_y grid_x = 1 - Gemini.draw_mode s).
    { rewrite Hcg by lia. by rewrite !Z.eqb_refl. }
    rewrite <- !(cell_entry gh gw) by done. rewrite Hcg, Hcp, Hv by done. done.
Qed.

Lemma gemini_draw_on_grid_spec_witness :
  has_shape 3 3 (Gemini.grid small_torus) = true /\
  has_shape 3 3 (Gemini.prev_grid small_torus) = true /\
  (Gemini.draw_mode small_torus = 0 \/ Gemini.draw_mode small_torus = 1) /\
  exists s', Gemini.draw_on_grid 10 (1, 2) small_torus = Ret s' /\
             Gemini.generation s' = Gemini.generation small_torus.
Proof.
  split; [reflexivity|]. split; [reflexivity|]. split; [by left|].
  destruct (gemini_draw_on_grid_spec 10 1 2 small_torus) as [_ H];
    [reflexivity|reflexivity|by left|].
  destruct H as (s' & H1 & H2 & _); [done|reflexivity|].
  exists s'. split; [exact H1|exact H2].
Defined.

(** ** Pattern transforms of the Gemini variant *)






Lemma set_active_pattern_same (p : ndarray) (s : Gemini.GameOfLife) :
  Gemini.active_pattern s = Some p -> Gemini.set_active_pattern (Some p) s = s.
Proof. destruct s. simpl. by intros ->. Qed.



(** ** Playback speed *)

(** Whatever keys and wheel movements follow, a speed between 1 and 60 stays
    between 1 and 60: it never reaches 0, by which [run] would divide. *)
Theorem speed_stays_in_range (events : list speed_event) (speed : Z) :
  1 <= speed <= 60 ->
  1 <= foldl change_speed speed events <= 60.
Proof.
  intros Hs. revert speed Hs. induction events as [|e events IH]; intros speed Hs; [done|].
  simpl. apply IH. destruct e; simpl; lia.
Qed.

Lemma speed_stays_in_range_witness :
  1 <= 10 <= 60 /\ 1 <= foldl change_speed 10 [Key1; Wheel 70; Key2; Wheel (-100)] <= 60.
Proof.
  split; [done|].
  apply (speed_stays_in_range [Key1; Wheel 70; Key2; Wheel (-100)] 10). done.
Defined.

(** ** Saving a game that has run *)

Lemma update_grid_population (s : GameOfLife) :
  has_shape GRID_HEIGHT GRID_WIDTH (grid s) = true ->
  exists s', update_grid s = Ret s' /\
    has_shape GRID_HEIGHT GRID_WIDTH (grid s') = true /\
    builtin (population (stats s')) = false.
Proof.
  intros Hs. destruct (next_generation_ok (grid s) Hs) as (new & Hrun & Hnew & _).
  unfold update_grid. cbn [grid set_previous_grid stats]. rewrite Hrun. py_step.
  eexists. split; [reflexivity|]. split; [exact Hnew|]. reflexivity.
Qed.

(** Once the game has taken a step, however many follow, [save_pattern]
    fails: every step returns and stores the population as a numpy scalar,
    [json.dump] raises [TypeError] on it and the file is left unparsable. *)
Theorem save_fails_once_stepped (n : nat) (s : GameOfLife) :
  has_shape GRID_HEIGHT GRID_WIDTH (grid s) = true ->
  exists s', update_grid_times (S n) s = Ret s' /\
    save_pattern s' = (Unparsable, Some TypeError).
Proof.
  revert s. induction n as [|n IH]; intros s Hs.
  - destruct (update_grid_population s Hs) as (s' & Hrun & _ & Hpop).
    exists s'. cbn [update_grid_times]. rewrite Hrun. py_step. split; [reflexivity|].
    unfold save_pattern, encode.
    destruct (generation (stats s')); cbn [json_of_int]; py_step; [|reflexivity].
    destruct (population (stats s')); [discriminate Hpop|reflexivity].
  - destruct (update_grid_population s Hs) as (s1 & Hrun & Hs1 & _).
    destruct (IH s1 Hs1) as (s' & Hrun' & Hsave).
    exists s'. split; [|exact Hsave].
    change (update_grid_times (S (S n)) s)
      with (s2 ← update_grid s; update_grid_times (S n) s2).
    rewrite Hrun. py_step. exact Hrun'.
Qed.

Lemma save_fails_once_stepped_witness :
  has_shape GRID_HEIGHT GRID_WIDTH (grid blinker_session) = true /\
  exists s', update_grid_times 2 blinker_session = Ret s' /\
    save_pattern s' = (Unparsable, Some TypeError).
Proof.
  split; [reflexivity|].
  apply (save_fails_once_stepped 1 blinker_session). reflexivity.
Defined.

(** ** Placement in the Gemini variant *)

